(** * verify-direct.py: direct contract verification against the explorer API

    A shallow embedding of [verify-direct.py] and the properties of its
    argument encoder, artifact loader, verification client and orchestrator.

    Conventions of the embedding.
    - A Python [str] is a [string] that holds the text in UTF-8;
      [str.lower], slices and lengths are modelled on the ASCII range, which
      is all that addresses, hexadecimal text and the script's own literals
      need.  A lone surrogate, which a JSON document can bring in through
      an escape such as [\ud83d], is held as the three bytes of its
      generalised UTF-8 form.  Standard output encodes UTF-8, so [print]
      raises on such text and on no other.
    - A Python [int] is a [Z].
    - A call that may raise returns an [outcome]; calls into the operating
      system and the network are answered by an environment, and every such
      call is appended to a trace. *)

From Stdlib Require Import ZArith List Bool Ascii String Lia.
From Stdlib Require Import DecimalString.
Import ListNotations.
Open Scope string_scope.
Open Scope Z_scope.

(** ** Python string primitives *)
Module PyStr.

Definition is_digit (c : ascii) : bool :=
  let n := N_of_ascii c in (48 <=? n)%N && (n <=? 57)%N.

Definition is_lower_af (c : ascii) : bool :=
  let n := N_of_ascii c in (97 <=? n)%N && (n <=? 102)%N.

Definition is_upper_AF (c : ascii) : bool :=
  let n := N_of_ascii c in (65 <=? n)%N && (n <=? 70)%N.

(** A hexadecimal digit in either letter case. *)
Definition is_hex (c : ascii) : bool :=
  is_digit c || is_lower_af c || is_upper_AF c.

(** A hexadecimal digit as [hex()] prints it: [0-9a-f]. *)
Definition is_lower_hex (c : ascii) : bool :=
  is_digit c || is_lower_af c.

Fixpoint all (p : ascii -> bool) (s : string) : bool :=
  match s with
  | EmptyString => true
  | String c r => p c && all p r
  end.

(** [c.lower()] on ASCII. *)
Definition lower_char (c : ascii) : ascii :=
  let n := N_of_ascii c in
  if (65 <=? n)%N && (n <=? 90)%N then ascii_of_N (n + 32) else c.

(** [s.lower()] *)
Fixpoint lower (s : string) : string :=
  match s with
  | EmptyString => EmptyString
  | String c r => String (lower_char c) (lower r)
  end.

(** ["c" * n] *)
Fixpoint repeat_char (c : ascii) (n : nat) : string :=
  match n with
  | O => EmptyString
  | S k => String c (repeat_char c k)
  end.

(** [s[n:]] *)
Fixpoint drop (n : nat) (s : string) : string :=
  match n, s with
  | O, _ => s
  | S k, EmptyString => EmptyString
  | S k, String _ r => drop k r
  end.

(** [s[:n]] *)
Fixpoint take (n : nat) (s : string) : string :=
  match n, s with
  | O, _ => EmptyString
  | S k, EmptyString => EmptyString
  | S k, String c r => String c (take k r)
  end.

(** [s.startswith(p)] *)
Fixpoint startswith (s p : string) : bool :=
  match p, s with
  | EmptyString, _ => true
  | String _ _, EmptyString => false
  | String a p', String b s' => Ascii.eqb a b && startswith s' p'
  end.

(** [s.endswith(suffix)] *)
Definition endswith (s suffix : string) : bool :=
  let n := String.length s in
  let m := String.length suffix in
  (m <=? n)%nat && String.eqb (drop (n - m) s) suffix.

(** The scan of [s.replace(old, new)] for a non-empty [old]: left to right,
    occurrences do not overlap.  [skip] counts the characters of the
    occurrence just replaced that are still to be stepped over. *)
Fixpoint replace_scan (old new : string) (skip : nat) (s : string) : string :=
  match s with
  | EmptyString => EmptyString
  | String c r =>
      match skip with
      | S k => replace_scan old new k r
      | O =>
          if startswith s old
          then new ++ replace_scan old new (String.length old - 1) r
          else String c (replace_scan old new 0 r)
      end
  end.

(** With an empty [old], Python puts [new] before every character and at
    the end. *)
Fixpoint replace_empty (new : string) (s : string) : string :=
  match s with
  | EmptyString => new
  | String c r => new ++ String c (replace_empty new r)
  end.

(** [s.replace(old, new)] *)
Definition replace (old new s : string) : string :=
  match old with
  | EmptyString => replace_empty new s
  | _ => replace_scan old new 0 s
  end.

(** [s.zfill(width)]: zeros go after a leading sign. *)
Definition zfill (width : nat) (s : string) : string :=
  let n := String.length s in
  if (width <=? n)%nat then s
  else
    match s with
    | String c r =>
        if Ascii.eqb c "+" || Ascii.eqb c "-"
        then String c (repeat_char "0" (width - n) ++ r)
        else repeat_char "0" (width - n) ++ s
    | EmptyString => repeat_char "0" (width - n)
    end.

(** The digit character of [d] in [0..15]. *)
Definition hex_digit (d : Z) : ascii :=
  if d <? 10 then ascii_of_N (Z.to_N (48 + d)) else ascii_of_N (Z.to_N (87 + d)).

(** The hexadecimal digits of [n >= 0], most significant first, built in
    front of [acc]; zero is the single digit ["0"]. *)
Fixpoint hex_digits_aux (fuel : nat) (n : Z) (acc : string) : string :=
  match fuel with
  | O => acc
  | S f =>
      let acc' := String (hex_digit (n mod 16)) acc in
      if n / 16 =? 0 then acc' else hex_digits_aux f (n / 16) acc'
  end.

Definition hex_digits (n : Z) : string :=
  hex_digits_aux (S (Z.to_nat (Z.log2 n))) n EmptyString.

(** [hex(val)] *)
Definition hex (val : Z) : string :=
  if val <? 0 then "-0x" ++ hex_digits (- val) else "0x" ++ hex_digits val.

(** [str(val)] for an [int]. *)
Definition str_int (val : Z) : string :=
  NilZero.string_of_int (Z.to_int val).

(** The value of a digit character, and of a string read in base 16
    ([int(s, 16)] on digits). *)
Definition hex_digit_value (c : ascii) : Z :=
  let n := Z.of_N (N_of_ascii c) in
  if is_digit c then n - 48
  else if is_lower_af c then n - 87
  else if is_upper_AF c then n - 55
  else 0.

Fixpoint hex_value_acc (acc : Z) (s : string) : Z :=
  match s with
  | EmptyString => acc
  | String c r => hex_value_acc (16 * acc + hex_digit_value c) r
  end.

Definition hex_value (s : string) : Z := hex_value_acc 0 s.

(** The first two bytes of a surrogate code point in generalised UTF-8:
    [ED] followed by [A0..BF].  No valid UTF-8 text holds this pair. *)
Definition is_surrogate_lead (c d : ascii) : bool :=
  (N_of_ascii c =? 237)%N && (160 <=? N_of_ascii d)%N && (N_of_ascii d <=? 191)%N.

Fixpoint has_surrogate (s : string) : bool :=
  match s with
  | EmptyString => false
  | String c r =>
      match r with
      | String d _ => is_surrogate_lead c d
      | EmptyString => false
      end || has_surrogate r
  end.

(** A text that [sys.stdout] can encode: one without a lone surrogate. *)
Definition printable (s : string) : bool := negb (has_surrogate s).

End PyStr.

(** ** Argument encoder *)

Definition DEPLOYER : string := "0x00CC14AF7d9ce9Be4fdf9aE858632a00287edE11".

(** [encode_address(addr)]: [addr.lower().replace("0x", "").zfill(64)] *)
Definition encode_address (addr : string) : string :=
  PyStr.zfill 64 (PyStr.replace "0x" "" (PyStr.lower addr)).

(** [encode_uint256(val)]: [hex(val)[2:].zfill(64)] *)
Definition encode_uint256 (val : Z) : string :=
  PyStr.zfill 64 (PyStr.drop 2 (PyStr.hex val)).


(** ** Exceptions, decoded JSON values, the registry *)

(** The exception classes the script can meet.  [HTTPError] carries the
    status code and what [e.read().decode()] gives: the decoded body, or
    [None] when the body is not UTF-8 text and decoding raises
    [UnicodeDecodeError]. *)
Inductive exn : Type :=
| IndexError
| KeyError (key : string)
| TypeError
| AttributeError
| ValueError
| UnicodeDecodeError
| UnicodeEncodeError
| JSONDecodeError
| OSError
| URLError
| HTTPError (code : Z) (body : option string).

Inductive outcome (A : Type) : Type :=
| Ret (a : A)
| Raise (e : exn).
Arguments Ret {A} a.
Arguments Raise {A} e.


(** A decoded JSON value, as far as the script can tell values apart: it
    compares them with [str] constants, asks whether they are a [dict],
    looks keys up, iterates over items and formats them with [str()].
    [shown] is the text [str()] gives for a value that is not a [str]. *)
#[local] Set Warnings "-register-all".
Inductive json : Type :=
| JStr (s : string)
| JDict (shown : string) (items : list (string * json))
| JOther (shown : string).

(** [str(v)], as in an f-string. *)
Definition py_str (v : json) : string :=
  match v with
  | JStr s => s
  | JDict shown _ => shown
  | JOther shown => shown
  end.

(** [v == c] for a [str] constant [c]. *)
Definition eq_str (v : json) (c : string) : bool :=
  match v with
  | JStr s => String.eqb s c
  | _ => false
  end.

(** A [dict] with [str] keys that keeps insertion order. *)
Fixpoint dict_get {V : Type} (d : list (string * V)) (key : string) : option V :=
  match d with
  | [] => None
  | (k, v) :: r => if String.eqb k key then Some v else dict_get r key
  end.

(** [d[key] = v]: an existing key keeps its place, a new one goes last. *)
Fixpoint dict_set {V : Type} (d : list (string * V)) (key : string) (v : V)
  : list (string * V) :=
  match d with
  | [] => [(key, v)]
  | (k, w) :: r =>
      if String.eqb k key then (k, v) :: r else (k, w) :: dict_set r key v
  end.

(** [v.get(key, default)]: only a [dict] has the method. *)
Definition json_get (v : json) (key : string) (default : json) : outcome json :=
  match v with
  | JDict _ items =>
      Ret (match dict_get items key with Some x => x | None => default end)
  | _ => Raise AttributeError
  end.

(** [v[key]] with a [str] key. *)
Definition json_getitem (v : json) (key : string) : outcome json :=
  match v with
  | JDict _ items =>
      match dict_get items key with
      | Some x => Ret x
      | None => Raise (KeyError key)
      end
  | _ => Raise TypeError
  end.

(** [v.items()] *)
Definition json_items (v : json) : outcome (list (string * json)) :=
  match v with
  | JDict _ items => Ret items
  | _ => Raise AttributeError
  end.

Definition VERIFY_URL : string :=
  "https://api-explorer-verify.testnet.abs.xyz/contract_verification".
Definition EXPLORER_URL : string := "https://explorer.testnet.abs.xyz".

(** One entry of [CONTRACTS]; [args] is [None] until it is computed. *)
Record contract_info : Type := {
  address : string;
  source : string;
  args : option string
}.

Definition registry : Type := list (string * contract_info).

Definition CONTRACTS : registry :=
  [ ("ClawRenderer",
     {| address := "0x90f493bfB740F00E6Cf280f4B9A6943d4b96d274";
        source := "contracts/ClawRenderer.sol";
        args := Some "0x" |});
    ("ClawRegistry",
     {| address := "0x01949e45FabCD684bcD4747966145140aB4778E5";
        source := "contracts/ClawRegistry.sol";
        args := None |});
    ("ClawEvolution",
     {| address := "0xed61D90c46343D0399de04a2CDEd195A217aa583";
        source := "contracts/ClawEvolution.sol";
        args := None |});
    ("ClawReputation",
     {| address := "0x2E031ad274261e1a58C033d61F3b0f310c419904";
        source := "contracts/ClawReputation.sol";
        args := None |}) ].

(** The body of the POST, before [json.dumps]. *)
Record request : Type := {
  contractAddress : string;
  sourceCode : json;
  codeFormat : string;
  contractName : string;
  compilerSolcVersion : json;
  compilerZksolcVersion : string;
  constructorArguments : option string;
  optimizationUsed : bool
}.

(** ** The environment and the state of a run *)

(** What the script does to the outside world, in order. *)
Inductive event : Type :=
| EvPrint (line : string)
| EvListdir (path : string)
| EvOpen (path : string)
| EvPost (url : string) (body : request)
| EvGet (url : string)
| EvSleep (seconds : Z).

(** The answers of the outside world.  The first argument counts the
    earlier calls of the same kind in the run.
    - [os_listdir]: [os.listdir(path)];
    - [json_load]: [open(path)] followed by [json.load];
    - [urlopen_post]: [urlopen] of a POST followed by
      [int(resp.read().decode())];
    - [urlopen_get]: [urlopen] of a GET followed by
      [json.loads(resp.read().decode())]. *)
Record Env : Type := {
  os_listdir : nat -> string -> outcome (list string);
  json_load : nat -> string -> outcome json;
  urlopen_post : nat -> string -> request -> outcome Z;
  urlopen_get : nat -> string -> outcome json
}.

(** The module-level [CONTRACTS] and the events so far. *)
Record state : Type := {
  contracts : registry;
  trace : list event
}.

Definition initial : state := {| contracts := CONTRACTS; trace := [] |}.

Definition is_listdir (e : event) : bool :=
  match e with EvListdir _ => true | _ => false end.
Definition is_open (e : event) : bool :=
  match e with EvOpen _ => true | _ => false end.
Definition is_post (e : event) : bool :=
  match e with EvPost _ _ => true | _ => false end.
Definition is_get (e : event) : bool :=
  match e with EvGet _ => true | _ => false end.
Definition is_sleep (e : event) : bool :=
  match e with EvSleep _ => true | _ => false end.
Definition is_network (e : event) : bool := is_post e || is_get e.

Definition count (p : event -> bool) (t : list event) : nat :=
  List.length (List.filter p t).

(** Computations that read and change the state and may raise. *)
Definition M (A : Type) : Type := state -> outcome A * state.

Definition ret {A : Type} (a : A) : M A := fun st => (Ret a, st).

Definition raise {A : Type} (e : exn) : M A := fun st => (Raise e, st).

Definition bind {A B : Type} (m : M A) (k : A -> M B) : M B :=
  fun st =>
    match m st with
    | (Ret a, st') => k a st'
    | (Raise e, st') => (Raise e, st')
    end.

(** [try: m except ...: handler]: [handler e] is [None] when no [except]
    clause matches [e]. *)
Definition try_except {A : Type} (m : M A) (handler : exn -> option (M A)) : M A :=
  fun st =>
    match m st with
    | (Ret a, st') => (Ret a, st')
    | (Raise e, st') =>
        match handler e with
        | Some k => k st'
        | None => (Raise e, st')
        end
    end.

Definition lift {A : Type} (o : outcome A) : M A := fun st => (o, st).

Definition emit (e : event) : M unit :=
  fun st => (Ret tt, {| contracts := contracts st; trace := trace st ++ [e] |}).

Definition get_contracts : M registry := fun st => (Ret (contracts st), st).

Definition put_contracts (r : registry) : M unit :=
  fun st => (Ret tt, {| contracts := r; trace := trace st |}).

(** An outside call: the event is recorded, then the answer comes. *)
Definition call {A : Type} (p : event -> bool) (e : event) (answer : nat -> outcome A)
  : M A :=
  fun st =>
    (answer (count p (trace st)),
     {| contracts := contracts st; trace := trace st ++ [e] |}).

Declare Scope py_scope.
Delimit Scope py_scope with py.
Notation "x <- c ;; k" := (bind c (fun x => k))
  (at level 61, c at next level, right associativity) : py_scope.
Notation "' pat <- c ;; k" := (bind c (fun x => match x with pat => k end))
  (at level 61, pat pattern, c at next level, right associativity) : py_scope.
Notation "c ;;; k" := (bind c (fun _ => k))
  (at level 61, right associativity) : py_scope.
Open Scope py_scope.

(** [print(line)] for a line made of the script's literals, the strings of
    the registry, integers and text that came out of [.decode()]: none of
    them can hold a lone surrogate. *)
Definition print (line : string) : M unit := emit (EvPrint line).

(** [print(line)] for an f-string into which the [str()] texts [texts] of
    decoded JSON values went.  The encoder of [sys.stdout] refuses a lone
    surrogate: the call then raises [UnicodeEncodeError] and prints
    nothing. *)
Definition print_with (texts : list string) (line : string) : M unit :=
  if List.forallb PyStr.printable texts then print line
  else raise UnicodeEncodeError.

(** ** The script *)

(** [compute_constructor_args()]: fills in the [args] of the three
    dependent entries of [CONTRACTS]. *)
Definition lookup_contract (key : string) : M contract_info :=
  cs <- get_contracts ;;
  match dict_get cs key with
  | Some info => ret info
  | None => raise (KeyError key)
  end.

(** [CONTRACTS[key]["args"] = value].  The entries of [CONTRACTS] are
    separate dict objects, as in the literal of the script, so the write
    reaches the entry under [key] and no other. *)
Definition set_args (key : string) (value : string) : M unit :=
  info <- lookup_contract key ;;
  cs <- get_contracts ;;
  put_contracts
    (dict_set cs key
       {| address := address info; source := source info; args := Some value |}).

Definition compute_constructor_args : M unit :=
  renderer <- lookup_contract "ClawRenderer" ;;
  let renderer_addr := address renderer in
  registry_entry <- lookup_contract "ClawRegistry" ;;
  let registry_addr := address registry_entry in
  set_args "ClawRegistry"
    ("0x" ++ encode_address renderer_addr ++ encode_uint256 500000000000000
          ++ encode_address DEPLOYER) ;;;
  set_args "ClawEvolution" ("0x" ++ encode_address registry_addr) ;;;
  set_args "ClawReputation" ("0x" ++ encode_address registry_addr).

Definition build_dir : string := "artifacts-zk/build-info".

(** [os.path.join(a, b)] on POSIX. *)
Definition path_join (a b : string) : string :=
  if PyStr.startswith b "/" then b
  else if String.eqb a "" || PyStr.endswith a "/" then a ++ b
  else a ++ "/" ++ b.

(** [[f for f in os.listdir(build_dir) if f.endswith(".json")]] *)
Definition json_files (names : list string) : list string :=
  List.filter (fun f => PyStr.endswith f ".json") names.

(** The first three lines shared by [load_source_code] and
    [get_zksolc_version]: list the directory, keep the [.json] names, open
    and parse the first one. *)
Definition load_build_info (env : Env) : M json :=
  names <- call is_listdir (EvListdir build_dir)
             (fun n => os_listdir env n build_dir) ;;
  let files := json_files names in
  match files with
  | [] => raise IndexError
  | first :: _ =>
      let path := path_join build_dir first in
      call is_open (EvOpen path) (fun n => json_load env n path)
  end.

(** [load_source_code()]: the compiler input and the solc version. *)
Definition load_source_code (env : Env) : M (json * json) :=
  build_info <- load_build_info env ;;
  input <- lift (json_getitem build_info "input") ;;
  solc <- lift (json_getitem build_info "solcVersion") ;;
  ret (input, solc).

(** The inner loop of [get_zksolc_version]: the first contract whose
    metadata is a [dict] with a ["zk_version"] key. *)
Fixpoint scan_contracts (contracts : list (string * json)) : outcome (option string) :=
  match contracts with
  | [] => Ret None
  | (contract_name, contract_data) :: rest =>
      match json_get contract_data "metadata" (JDict "{}" []) with
      | Raise e => Raise e
      | Ret (JDict _ items) =>
          match dict_get items "zk_version" with
          | Some v => Ret (Some ("v" ++ py_str v))
          | None => scan_contracts rest
          end
      | Ret _ => scan_contracts rest
      end
  end.

(** The outer loop, over the source files. *)
Fixpoint scan_sources (sources : list (string * json)) : outcome (option string) :=
  match sources with
  | [] => Ret None
  | (source_name, contracts) :: rest =>
      match json_items contracts with
      | Raise e => Raise e
      | Ret items =>
          match scan_contracts items with
          | Raise e => Raise e
          | Ret (Some version) => Ret (Some version)
          | Ret None => scan_sources rest
          end
      end
  end.

(** [get_zksolc_version()] *)
Definition get_zksolc_version (env : Env) : M string :=
  build_info <- load_build_info env ;;
  output <- lift (json_get build_info "output" (JDict "{}" [])) ;;
  by_source <- lift (json_get output "contracts" (JDict "{}" [])) ;;
  sources <- lift (json_items by_source) ;;
  found <- lift (scan_sources sources) ;;
  match found with
  | Some version => ret version
  | None => ret "v1.5.10"
  end.

(** The [request] dict of [submit_verification].  Every field is a [str],
    a [bool], [None] or a decoded JSON value, so [json.dumps] of it raises
    nothing. *)
Definition verification_request (contract_name : string) (info : contract_info)
    (source_code solc_version : json) (zksolc_version : string) : request :=
  {| contractAddress := address info;
     sourceCode := source_code;
     codeFormat := "solidity-standard-json-input";
     contractName := source info ++ ":" ++ contract_name;
     compilerSolcVersion := solc_version;
     compilerZksolcVersion := zksolc_version;
     constructorArguments := args info;
     optimizationUsed := true |}.

(** [submit_verification(contract_name, contract_info, source_code,
    solc_version, zksolc_version)]: the verification id, or [None] after
    an [HTTPError]. *)
Definition submit_verification (env : Env) (contract_name : string)
    (info : contract_info) (source_code solc_version : json)
    (zksolc_version : string) : M (option Z) :=
  let req := verification_request contract_name info source_code solc_version
               zksolc_version in
  try_except
    (verification_id <- call is_post (EvPost VERIFY_URL req)
                          (fun n => urlopen_post env n VERIFY_URL req) ;;
     ret (Some verification_id))
    (fun e =>
       match e with
       | HTTPError code body =>
           Some (error_body <- lift (match body with
                                     | Some text => Ret text
                                     | None => Raise UnicodeDecodeError
                                     end) ;;
                 print ("  ❌ HTTP Error " ++ PyStr.str_int code ++ ": "
                        ++ PyStr.take 200 error_body) ;;;
                 ret None)
       | _ => None
       end).

(** [check_status(verification_id)] *)
Definition check_status (env : Env) (verification_id : Z) : M json :=
  let url := VERIFY_URL ++ "/" ++ PyStr.str_int verification_id in
  call is_get (EvGet url) (fun n => urlopen_get env n url).

(** The loop of [wait_for_verification]: [i] is the loop variable and
    [remaining] the iterations of [range(max_retries)] still to run. *)
Fixpoint wait_loop (env : Env) (verification_id : Z) (max_retries : nat)
    (remaining : nat) (i : nat) : M (bool * option json) :=
  match remaining with
  | O => ret (false, Some (JStr "Timeout waiting for verification"))
  | S remaining' =>
      emit (EvSleep 3) ;;;
      status <- check_status env verification_id ;;
      state <- lift (json_get status "status" (JStr "unknown")) ;;
      if eq_str state "successful" then ret (true, None)
      else if eq_str state "failed" then
        error <- lift (json_get status "error" (JStr "Unknown error")) ;;
        ret (false, Some error)
      else
        (if eq_str state "in_progress" || eq_str state "queued"
         then print_with [py_str state]
                ("  ⏳ Still " ++ py_str state ++ "... ("
                 ++ PyStr.str_int (Z.of_nat (i + 1)) ++ "/"
                 ++ PyStr.str_int (Z.of_nat max_retries) ++ ")")
         else print_with [py_str state]
                ("  ❓ Unknown status: " ++ py_str state)) ;;;
        wait_loop env verification_id max_retries remaining' (S i)
  end.

(** [wait_for_verification(verification_id, contract_name, max_retries)] *)
Definition wait_for_verification (env : Env) (verification_id : Z)
    (contract_name : string) (max_retries : nat) : M (bool * option json) :=
  wait_loop env verification_id max_retries max_retries 0.

Definition default_max_retries : nat := 15.

(** [str(error)] where [error] may be [None]. *)
Definition str_error (error : option json) : string :=
  match error with
  | Some v => py_str v
  | None => "None"
  end.

Definition results_dict : Type := list (string * string).

(** One iteration of the [for name, info in CONTRACTS.items()] loop of
    [main]. *)
Definition verify_contract (env : Env) (source_code solc_version : json)
    (zksolc_version : string) (name : string) (info : contract_info)
    (results : results_dict) : M results_dict :=
  print ("📝 Verifying " ++ name ++ " at " ++ address info ++ "...") ;;;
  match args info with
  | None => raise TypeError
  | Some a =>
      print ("  Constructor args: " ++ PyStr.take 40 a
             ++ (if (40 <? String.length a)%nat then "..." else "")) ;;;
      vid <- submit_verification env name info source_code solc_version
               zksolc_version ;;
      match vid with
      | None => ret (dict_set results name "FAILED (submission error)")
      | Some vid =>
          print ("  Verification ID: " ++ PyStr.str_int vid) ;;;
          ' (success, error) <- wait_for_verification env vid name
                                  default_max_retries ;;
          if success : bool then
            print ("  ✅ " ++ name ++ " verified successfully!") ;;;
            print ("  🔗 " ++ EXPLORER_URL ++ "/address/" ++ address info
                   ++ "#contract") ;;;
            let results := dict_set results name "VERIFIED" in
            print "" ;;;
            ret results
          else
            print_with [str_error error]
              ("  ❌ " ++ name ++ " verification failed: "
               ++ str_error error) ;;;
            let results := dict_set results name ("FAILED: " ++ str_error error) in
            print "" ;;;
            ret results
      end
  end.

(** The whole [for] loop of [main]. *)
Fixpoint verify_all (env : Env) (source_code solc_version : json)
    (zksolc_version : string) (items : registry) (results : results_dict)
  : M results_dict :=
  match items with
  | [] => ret results
  | (name, info) :: rest =>
      results' <- verify_contract env source_code solc_version zksolc_version
                    name info results ;;
      verify_all env source_code solc_version zksolc_version rest results'
  end.

Definition rule : string := PyStr.repeat_char "=" 50.

(** [main()] before the [for] loop: the compiler input and the two
    compiler versions. *)
Definition main_setup (env : Env) : M (json * json * string) :=
  print "🐾 Claw Domains — Direct Contract Verification" ;;;
  print rule ;;;
  compute_constructor_args ;;;
  ' (source_code, solc_version) <- load_source_code env ;;
  zksolc_version <- get_zksolc_version env ;;
  print_with [zksolc_version; py_str solc_version]
    ("Compiler: zksolc " ++ zksolc_version ++ ", solc " ++ py_str solc_version) ;;;
  print "" ;;;
  ret (source_code, solc_version, zksolc_version).

(** [main()] up to the end of the [for] loop: the [results] dict. *)
Definition main_results (env : Env) : M results_dict :=
  ' (source_code, solc_version, zksolc_version) <- main_setup env ;;
  items <- get_contracts ;;
  verify_all env source_code solc_version zksolc_version items [].

Definition report_header : string := "📊 VERIFICATION RESULTS".

(** The lines of the final report, one per entry of [results]. *)
Fixpoint print_results (results : results_dict) : M unit :=
  match results with
  | [] => ret tt
  | (name, result) :: rest =>
      let emoji := if String.eqb result "VERIFIED" then "✅" else "❌" in
      print_with [result] ("  " ++ emoji ++ " " ++ name ++ ": " ++ result) ;;;
      print_results rest
  end.

(** [all(r == "VERIFIED" for r in results.values())] *)
Definition all_verified (results : results_dict) : bool :=
  List.forallb (fun entry => String.eqb (snd entry) "VERIFIED") results.

(** The end of [main()]: the report and the returned value. *)
Definition report (results : results_dict) : M bool :=
  print (String "010" "" ++ rule) ;;;
  print report_header ;;;
  print rule ;;;
  print_results results ;;;
  ret (all_verified results).

(** [main()] *)
Definition main (env : Env) : M bool :=
  results <- main_results env ;;
  report results.

(** The exit status of [sys.exit(0 if main() else 1)]; an exception that
    leaves [main] ends the interpreter with status 1. *)
Definition exit_code (env : Env) : Z :=
  match fst (main env initial) with
  | Ret true => 0
  | Ret false => 1
  | Raise _ => 1
  end.

(** [CONTRACTS] once [compute_constructor_args] has run. *)
Definition CONTRACTS_resolved : registry :=
  Eval vm_compute in contracts (snd (compute_constructor_args initial)).

(** ** Notions used in the statements *)

(** [quiet P m]: running [m] leaves [CONTRACTS] as it is and only adds
    events that satisfy [P] to the trace. *)
Definition quiet {A : Type} (P : event -> Prop) (m : M A) : Prop :=
  forall st,
    contracts (snd (m st)) = contracts st
    /\ exists added, trace (snd (m st)) = (trace st ++ added)%list /\ Forall P added.

(** The [n]-th poll answer is a [dict] whose status is neither
    [successful] nor [failed] and can be printed. *)
Definition pending_at (env : Env) (n : nat) (url : string) : Prop :=
  exists reply state,
    urlopen_get env n url = Ret reply
    /\ json_get reply "status" (JStr "unknown") = Ret state
    /\ eq_str state "successful" = false
    /\ eq_str state "failed" = false
    /\ PyStr.printable (py_str state) = true.

(** The entries of [results] can all be printed. *)
Definition printable_results (results : results_dict) : bool :=
  forallb (fun entry => PyStr.printable (snd entry)) results.

(** An event other than the header line of the final report. *)
Definition not_report (e : event) : Prop := e <> EvPrint report_header.

(** The state in which [main] calls [load_source_code]. *)
Definition after_banner : state :=
  {| contracts := CONTRACTS_resolved;
     trace := [ EvPrint "🐾 Claw Domains — Direct Contract Verification";
                EvPrint rule ] |}.

(** ** Sample environments *)
Module Samples.

(** A build-info file with the three parts the script reads. *)
Definition build_info : json :=
  JDict "{...}"
    [ ("input", JDict "{...}" [("language", JStr "Solidity")]);
      ("solcVersion", JStr "0.8.24");
      ("output",
       JDict "{...}"
         [ ("contracts",
            JDict "{...}"
              [ ("contracts/ClawRenderer.sol",
                 JDict "{...}"
                   [ ("ClawRenderer",
                      JDict "{...}"
                        [("metadata",
                          JDict "{...}" [("zk_version", JStr "1.5.7")])]) ]) ]) ]) ].

Definition status (s : string) : json :=
  JDict "{...}" [("status", JStr s)].

(** One build-info file; every submission is accepted and every poll
    answers [successful]. *)
Definition all_successful : Env :=
  {| os_listdir := fun _ _ => Ret ["7f3a.json"];
     json_load := fun _ _ => Ret build_info;
     urlopen_post := fun n _ _ => Ret (100 + Z.of_nat n);
     urlopen_get := fun _ _ => Ret (status "successful") |}.

(** Every poll answers [in_progress]. *)
Definition always_in_progress : Env :=
  {| os_listdir := fun _ _ => Ret ["7f3a.json"];
     json_load := fun _ _ => Ret build_info;
     urlopen_post := fun n _ _ => Ret (100 + Z.of_nat n);
     urlopen_get := fun _ _ => Ret (status "in_progress") |}.

(** The build-info directory holds no [.json] file. *)
Definition no_build_info : Env :=
  {| os_listdir := fun _ _ => Ret ["README.md"; "7f3a.dbg"];
     json_load := fun _ _ => Raise OSError;
     urlopen_post := fun n _ _ => Ret (100 + Z.of_nat n);
     urlopen_get := fun _ _ => Ret (status "successful") |}.





End Samples.

(** ** Further notions used in the statements *)

(** [bounded posts gets m]: running [m] adds at most [posts] POSTs and at
    most [gets] GETs to the trace. *)
Definition bounded {A : Type} (posts gets : nat) (m : M A) : Prop :=
  forall st,
    (count is_post (trace (snd (m st))) <= count is_post (trace st) + posts)%nat
    /\ (count is_get (trace (snd (m st))) <= count is_get (trace st) + gets)%nat.

(** A contract entry of the build-info output in which
    [get_zksolc_version] finds no version: a [dict] whose metadata is
    absent, is not a [dict], or is a [dict] without ["zk_version"]. *)
Definition no_zk_version (contract_data : json) : Prop :=
  exists shown items,
    contract_data = JDict shown items
    /\ match dict_get items "metadata" with
       | Some (JDict _ metadata) => dict_get metadata "zk_version" = None
       | _ => True
       end.

(** A source entry of the build-info output all of whose contracts are
    without a version. *)
Definition no_zk_version_source (contracts : json) : Prop :=
  exists shown items,
    contracts = JDict shown items
    /\ Forall (fun entry => no_zk_version (snd entry)) items.

(** The [n]-th poll answer is a [dict] whose status is [successful]. *)
Definition successful_at (env : Env) (n : nat) (url : string) : Prop :=
  exists reply state,
    urlopen_get env n url = Ret reply
    /\ json_get reply "status" (JStr "unknown") = Ret state
    /\ eq_str state "successful" = true.

(** The [n]-th poll answer is a [dict] whose status is [failed]; [error]
    is its ["error"] entry, or the default text. *)
Definition failed_at (env : Env) (n : nat) (url : string) (error : json) : Prop :=
  exists reply state,
    urlopen_get env n url = Ret reply
    /\ json_get reply "status" (JStr "unknown") = Ret state
    /\ eq_str state "successful" = false
    /\ eq_str state "failed" = true
    /\ json_get reply "error" (JStr "Unknown error") = Ret error.

(** The URL polled for a verification id. *)
Definition status_url (verification_id : Z) : string :=
  VERIFY_URL ++ "/" ++ PyStr.str_int verification_id.

(** The entry [compute_constructor_args] writes for a dependent contract,
    and the two blobs it computes. *)
Definition with_args (info : contract_info) (value : string) : contract_info :=
  {| address := address info; source := source info; args := Some value |}.

Definition registry_args (renderer : contract_info) : string :=
  "0x" ++ encode_address (address renderer) ++ encode_uint256 500000000000000
       ++ encode_address DEPLOYER.

Definition dependent_args (registry_entry : contract_info) : string :=
  "0x" ++ encode_address (address registry_entry).

Module MoreSamples.

(** A build-info file without the ["output"] part. *)
Definition build_info_no_output : json :=
  JDict "{...}"
    [ ("input", JDict "{...}" [("language", JStr "Solidity")]);
      ("solcVersion", JStr "0.8.24") ].

(** A build-info file without the compiler input. *)
Definition build_info_no_input : json :=
  JDict "{...}" [ ("solcVersion", JStr "0.8.24") ].

(** Contract entries: one whose metadata is a JSON text, one without
    metadata, one with a version, one that is not a [dict]. *)
Definition text_metadata : json :=
  JDict "{...}" [("metadata", JStr "{...}")].
Definition no_metadata : json := JDict "{...}" [("abi", JOther "[]")].
Definition versioned (v : string) : json :=
  JDict "{...}" [("metadata", JDict "{...}" [("zk_version", JStr v)])].
Definition malformed : json := JOther "None".

(** Two build-info files in the directory; the file has no ["output"]. *)
Definition two_build_infos : Env :=
  {| os_listdir := fun _ _ => Ret ["notes.txt"; "b.json"; "a.json"];
     json_load := fun _ _ => Ret build_info_no_output;
     urlopen_post := fun n _ _ => Ret (Z.of_nat n);
     urlopen_get := fun _ _ => Ret (Samples.status "successful") |}.

(** The directory cannot be listed. *)
Definition no_directory : Env :=
  {| os_listdir := fun _ _ => Raise OSError;
     json_load := fun _ _ => Ret Samples.build_info;
     urlopen_post := fun n _ _ => Ret (Z.of_nat n);
     urlopen_get := fun _ _ => Ret (Samples.status "successful") |}.

(** The build-info file has no compiler input. *)
Definition no_input : Env :=
  {| os_listdir := fun _ _ => Ret ["a.json"];
     json_load := fun _ _ => Ret build_info_no_input;
     urlopen_post := fun n _ _ => Ret (Z.of_nat n);
     urlopen_get := fun _ _ => Ret (Samples.status "successful") |}.

End MoreSamples.

Module VersionSamples.
Import MoreSamples.

(** The contracts of one source file: two entries without a version, then
    version 1.5.7, then version 1.4.0 and an entry that is not a [dict]. *)
Definition contracts_with_version : list (string * json) :=
  [ ("A", text_metadata); ("B", no_metadata); ("C", versioned "1.5.7");
    ("D", versioned "1.4.0"); ("E", malformed) ].

(** The same without the versions in front of the malformed entry. *)
Definition contracts_malformed : list (string * json) :=
  [ ("A", text_metadata); ("B", no_metadata); ("E", malformed);
    ("C", versioned "1.5.7") ].

Definition build_info_of (contracts : list (string * json)) : json :=
  JDict "{...}"
    [ ("output",
       JDict "{...}"
         [ ("contracts",
            JDict "{...}"
              [ ("contracts/Empty.sol", JDict "{}" []);
                ("contracts/Claw.sol", JDict "{...}" contracts) ]) ]) ].

Definition env_of (build_info : json) : Env :=
  {| os_listdir := fun _ _ => Ret ["a.json"];
     json_load := fun _ _ => Ret build_info;
     urlopen_post := fun n _ _ => Ret (Z.of_nat n);
     urlopen_get := fun _ _ => Ret (Samples.status "successful") |}.

End VersionSamples.

(** The line [wait_for_verification] prints after a poll whose status is
    not final: iteration [i] of [max_retries]. *)
Definition poll_line (state : json) (i max_retries : nat) : string :=
  if eq_str state "in_progress" || eq_str state "queued"
  then "  ⏳ Still " ++ py_str state ++ "... ("
       ++ PyStr.str_int (Z.of_nat (i + 1)) ++ "/"
       ++ PyStr.str_int (Z.of_nat max_retries) ++ ")"
  else "  ❓ Unknown status: " ++ py_str state.

(** The [n]-th poll raises [e]: [urlopen] or the decoding of the answer
    does, or the answer is not a [dict] and [.get] does. *)
Definition poll_raises_at (env : Env) (n : nat) (url : string) (e : exn) : Prop :=
  match urlopen_get env n url with
  | Raise e' => e' = e
  | Ret reply => json_get reply "status" (JStr "unknown") = Raise e
  end.

(** The state after one sleep and one poll. *)
Definition polled (verification_id : Z) (st : state) : state :=
  {| contracts := contracts st;
     trace := trace st ++ [EvSleep 3; EvGet (status_url verification_id)] |}.

Module PollSamples.

Definition with_gets (get : nat -> string -> outcome json) : Env :=
  {| os_listdir := fun _ _ => Ret ["7f3a.json"];
     json_load := fun _ _ => Ret Samples.build_info;
     urlopen_post := fun n _ _ => Ret (Z.of_nat n);
     urlopen_get := get |}.

(** Queued, in progress, then successful. *)
Definition third_poll_successful : Env :=
  with_gets (fun n _ =>
    match n with
    | 0%nat => Ret (Samples.status "queued")
    | 1%nat => Ret (Samples.status "in_progress")
    | _ => Ret (Samples.status "successful")
    end).

(** An unrecognized status, then failed without an ["error"] entry. *)
Definition second_poll_failed : Env :=
  with_gets (fun n _ =>
    match n with
    | 0%nat => Ret (Samples.status "compiling")
    | _ => Ret (Samples.status "failed")
    end).

(** Failed at once, with a reason. *)
Definition failed_with_reason : Env :=
  with_gets (fun _ _ =>
    Ret (JDict "{...}" [("status", JStr "failed");
                        ("error", JStr "Bytecode mismatch")])).

(** In progress, then an answer that is a JSON list. *)
Definition second_poll_not_a_dict : Env :=
  with_gets (fun n _ =>
    match n with
    | 0%nat => Ret (Samples.status "in_progress")
    | _ => Ret (JOther "[]")
    end).

(** The text of the JSON string ["\ud83d"]: one lone surrogate. *)
Definition lone_surrogate : string :=
  String "237" (String "160" (String "189" EmptyString)).

(** Every poll answers with a status that is a lone surrogate. *)
Definition unprintable_status : Env :=
  with_gets (fun _ _ => Ret (Samples.status lone_surrogate)).

(** Every poll cannot connect. *)
Definition polls_refused : Env :=
  with_gets (fun _ _ => Raise URLError).

End PollSamples.

(** An event that is neither a POST nor a GET. *)
Definition local_event (e : event) : Prop := is_network e = false.

(** The entry [main] stores for a contract, by the outcome of the wait. *)
Definition entry_of (outcome : bool * option json) : string :=
  if fst outcome then "VERIFIED" else "FAILED: " ++ str_error (snd outcome).

(** * Properties *)

(** ** String primitives *)
Module PyStrFacts.
Import PyStr.

Lemma length_app (s t : string) :
  String.length (s ++ t) = (String.length s + String.length t)%nat.
Proof. induction s as [|c s IH]; simpl; [reflexivity | now rewrite IH]. Qed.

Lemma app_empty_r (s : string) : s ++ "" = s.
Proof. induction s as [|c s IH]; simpl; [reflexivity | now rewrite IH]. Qed.

Lemma app_assoc (s t u : string) : (s ++ t) ++ u = s ++ (t ++ u).
Proof. induction s as [|c s IH]; simpl; [reflexivity | now rewrite IH]. Qed.

Lemma length_repeat_char (c : ascii) (n : nat) :
  String.length (repeat_char c n) = n.
Proof. induction n as [|n IH]; simpl; [reflexivity | now rewrite IH]. Qed.

Lemma length_lower (s : string) : String.length (lower s) = String.length s.
Proof. induction s as [|c s IH]; simpl; [reflexivity | now rewrite IH]. Qed.

Lemma lower_app (s t : string) : lower (s ++ t) = lower s ++ lower t.
Proof. induction s as [|c s IH]; simpl; [reflexivity | now rewrite IH]. Qed.

Lemma all_app (p : ascii -> bool) (s t : string) :
  all p (s ++ t) = all p s && all p t.
Proof.
  induction s as [|c s IH]; simpl; [reflexivity|].
  now rewrite IH, andb_assoc.
Qed.

Lemma all_repeat_char (p : ascii -> bool) (c : ascii) (n : nat) :
  p c = true -> all p (repeat_char c n) = true.
Proof. intros Hc. induction n as [|n IH]; simpl; [reflexivity | now rewrite Hc, IH]. Qed.

Lemma startswith_empty (s : string) : startswith s "" = true.
Proof. destruct s; reflexivity. Qed.

(** Removing a leading ["0x"]: the scan steps over it and goes on. *)
Lemma replace_0x_prefix (s : string) :
  replace_scan "0x" "" 0 ("0x" ++ s) = replace_scan "0x" "" 0 s.
Proof.
  cbn [String.append replace_scan startswith].
  rewrite startswith_empty. reflexivity.
Qed.

(** Lower-casing a hexadecimal digit gives a digit of [0-9a-f]. *)
Lemma lower_char_hex (c : ascii) :
  is_hex c = true -> is_lower_hex (lower_char c) = true.
Proof.
  destruct c as [[] [] [] [] [] [] [] []]; vm_compute; intros H;
    first [discriminate H | reflexivity].
Qed.

Lemma lower_hex_not_sign (c : ascii) :
  is_lower_hex c = true -> Ascii.eqb c "+" || Ascii.eqb c "-" = false.
Proof.
  destruct c as [[] [] [] [] [] [] [] []]; vm_compute; intros H;
    first [discriminate H | reflexivity].
Qed.

Lemma lower_all_hex (s : string) :
  all is_hex s = true -> all is_lower_hex (lower s) = true.
Proof.
  induction s as [|c s IH]; simpl; [reflexivity|].
  intros H. apply andb_true_iff in H as [Hc Hs].
  now rewrite (lower_char_hex c Hc), IH.
Qed.

(** A text of [0-9a-f] digits has no occurrence of ["0x"], so the
    replacement leaves it as it is. *)
Lemma replace_0x_lower_hex (s : string) :
  all is_lower_hex s = true -> replace_scan "0x" "" 0 s = s.
Proof.
  induction s as [|c s IH]; [reflexivity|].
  intros H. simpl in H. apply andb_true_iff in H as [Hc Hs].
  cbn [replace_scan].
  assert (Hp : startswith (String c s) "0x" = false).
  { destruct s as [|d s']; cbn [startswith].
    - apply andb_false_r.
    - cbn [all] in Hs. apply andb_true_iff in Hs as [Hd _].
      destruct (Ascii.eqb_spec "x" d) as [E|_].
      + subst d. discriminate Hd.
      + apply andb_false_r. }
  rewrite Hp, (IH Hs). reflexivity.
Qed.

(** [zfill] on a text that does not start with a sign: zeros in front, up
    to the width. *)
Lemma zfill_no_sign (w : nat) (s : string) :
  (forall c r, s = String c r -> Ascii.eqb c "+" || Ascii.eqb c "-" = false) ->
  zfill w s = repeat_char "0" (w - String.length s) ++ s.
Proof.
  intros Hs. unfold zfill.
  destruct (Nat.leb_spec w (String.length s)) as [Hle|Hlt].
  - replace (w - String.length s)%nat with 0%nat by lia. reflexivity.
  - destruct s as [|c r].
    + now rewrite app_empty_r.
    + now rewrite (Hs c r eq_refl).
Qed.

Lemma length_zfill (w : nat) (s : string) :
  String.length (zfill w s) = Nat.max w (String.length s).
Proof.
  unfold zfill.
  destruct (Nat.leb_spec w (String.length s)) as [Hle|Hlt]; [lia|].
  destruct s as [|c r].
  - rewrite length_repeat_char. simpl. lia.
  - destruct (Ascii.eqb c "+" || Ascii.eqb c "-"); simpl in *;
      rewrite length_app, length_repeat_char; simpl; lia.
Qed.

Lemma hex_digit_spec (d : Z) :
  0 <= d < 16 ->
  is_lower_hex (hex_digit d) = true /\ hex_digit_value (hex_digit d) = d.
Proof.
  intros H.
  assert (E : d = 0 \/ d = 1 \/ d = 2 \/ d = 3 \/ d = 4 \/ d = 5 \/ d = 6 \/ d = 7
              \/ d = 8 \/ d = 9 \/ d = 10 \/ d = 11 \/ d = 12 \/ d = 13 \/ d = 14
              \/ d = 15) by lia.
  repeat (destruct E as [E|E]; [subst d; split; reflexivity|]).
  subst d; split; reflexivity.
Qed.

Lemma hex_value_acc_app (a : Z) (s t : string) :
  hex_value_acc a (s ++ t) = hex_value_acc (hex_value_acc a s) t.
Proof. revert a. induction s as [|c s IH]; intros a; simpl; [reflexivity | apply IH]. Qed.

Lemma hex_value_zeros (n : nat) (s : string) :
  hex_value (repeat_char "0" n ++ s) = hex_value s.
Proof. unfold hex_value. induction n as [|n IH]; simpl; [reflexivity | exact IH]. Qed.

Lemma hex_digit_zero (d : Z) :
  0 < d < 16 -> hex_digit d <> "0"%char.
Proof.
  intros H E. destruct (hex_digit_spec d ltac:(lia)) as [_ Hv].
  rewrite E in Hv. vm_compute in Hv. lia.
Qed.

(** The digit loop, with enough fuel, puts in front of [acc] the digits of
    [n]: digits of [0-9a-f], at least one, at most [k] when [n < 16^k],
    with value [n], and with no zero in front when [n] is positive. *)
Lemma hex_digits_aux_spec (fuel : nat) :
  forall (n : Z) (acc : string),
    0 <= n < 2 ^ Z.of_nat (S fuel) ->
    exists d,
      hex_digits_aux (S fuel) n acc = d ++ acc
      /\ all is_lower_hex d = true
      /\ (1 <= String.length d)%nat
      /\ (forall a, hex_value_acc a d = a * 16 ^ Z.of_nat (String.length d) + n)
      /\ (forall k, (1 <= k)%nat -> n < 16 ^ Z.of_nat k -> (String.length d <= k)%nat)
      /\ (0 < n -> exists c r, d = String c r /\ c <> "0"%char).
Proof.
  assert (Hone : forall n acc,
             0 <= n -> n / 16 = 0 ->
             exists d,
               String (hex_digit (n mod 16)) acc = d ++ acc
               /\ all is_lower_hex d = true
               /\ (1 <= String.length d)%nat
               /\ (forall a, hex_value_acc a d = a * 16 ^ Z.of_nat (String.length d) + n)
               /\ (forall k, (1 <= k)%nat -> n < 16 ^ Z.of_nat k ->
                      (String.length d <= k)%nat)
               /\ (0 < n -> exists c r, d = String c r /\ c <> "0"%char)).
  { intros n acc Hn Hz.
    assert (Hm : 0 <= n mod 16 < 16) by (apply Z.mod_pos_bound; lia).
    destruct (hex_digit_spec _ Hm) as [Hl Hv].
    assert (Hdm : n = 16 * (n / 16) + n mod 16) by (apply Z.div_mod; lia).
    exists (String (hex_digit (n mod 16)) "").
    cbn [String.append all String.length hex_value_acc].
    rewrite Hl, Hv. change (16 ^ Z.of_nat 1) with 16.
    split; [reflexivity|]. split; [reflexivity|]. split; [lia|].
    split; [intros a; lia|]. split; [intros k Hk _; exact Hk|].
    intros Hpos. exists (hex_digit (n mod 16)), "". split; [reflexivity|].
    apply hex_digit_zero. lia. }
  induction fuel as [|f IH]; intros n acc Hn.
  - change (2 ^ Z.of_nat 1) with 2 in Hn. cbn [hex_digits_aux].
    assert (Hz : n / 16 = 0) by (apply Z.div_small; lia).
    rewrite Hz, Z.eqb_refl. apply Hone; lia.
  - cbn [hex_digits_aux].
    destruct (Z.eqb_spec (n / 16) 0) as [Hz|Hnz]; [apply Hone; lia|].
    assert (Hm : 0 <= n mod 16 < 16) by (apply Z.mod_pos_bound; lia).
    destruct (hex_digit_spec _ Hm) as [Hl Hv].
    assert (Hdm : n = 16 * (n / 16) + n mod 16) by (apply Z.div_mod; lia).
    assert (Hq : 0 <= n / 16 < 2 ^ Z.of_nat (S f)).
    { split; [apply Z.div_pos; lia|].
      apply Z.div_lt_upper_bound; [lia|].
      rewrite (Nat2Z.inj_succ (S f)), Z.pow_succ_r in Hn by lia.
      assert (0 < 2 ^ Z.of_nat (S f)) by (apply Z.pow_pos_nonneg; lia). lia. }
    destruct (IH (n / 16) (String (hex_digit (n mod 16)) acc) Hq)
      as (d & Hd & Hall & Hlen & Hval & Hk & Hlead).
    exists (d ++ String (hex_digit (n mod 16)) "").
    rewrite app_assoc, all_app, length_app. cbn [String.append all String.length].
    rewrite Hall, Hl.
    split; [exact Hd|]. split; [reflexivity|]. split; [lia|]. split; [|split].
    + intros a. rewrite hex_value_acc_app, Hval. cbn [hex_value_acc]. rewrite Hv.
      replace (Z.of_nat (String.length d + 1)) with (Z.succ (Z.of_nat (String.length d))) by lia.
      rewrite Z.pow_succ_r by lia. lia.
    + intros k Hk1 Hnk. destruct k as [|k]; [lia|].
      destruct k as [|k].
      { change (16 ^ Z.of_nat 1) with 16 in Hnk.
        assert (n / 16 = 0) by (apply Z.div_small; lia). contradiction. }
      assert (String.length d <= S k)%nat; [|lia].
      apply Hk; [lia|].
      apply Z.div_lt_upper_bound; [lia|].
      rewrite (Nat2Z.inj_succ (S k)), Z.pow_succ_r in Hnk by lia. exact Hnk.
    + intros _. destruct Hlead as (c & r & -> & Hc); [lia|].
      exists c, (r ++ String (hex_digit (n mod 16)) ""). now split.
Qed.

(** [hex_digits] is the hexadecimal numeral of [n]: digits of [0-9a-f]
    that read back as [n], without a zero in front unless [n] is zero. *)
Lemma hex_digits_spec (n : Z) :
  0 <= n ->
  all is_lower_hex (hex_digits n) = true
  /\ (1 <= String.length (hex_digits n))%nat
  /\ hex_value (hex_digits n) = n
  /\ (forall k, (1 <= k)%nat -> n < 16 ^ Z.of_nat k -> (String.length (hex_digits n) <= k)%nat)
  /\ (0 < n -> exists c r, hex_digits n = String c r /\ c <> "0"%char).
Proof.
  intros Hn. unfold hex_digits.
  assert (Hf : 0 <= n < 2 ^ Z.of_nat (S (Z.to_nat (Z.log2 n)))).
  { split; [exact Hn|].
    rewrite Nat2Z.inj_succ, Z2Nat.id by apply Z.log2_nonneg.
    destruct (Z.eq_dec n 0) as [->|Hz]; [reflexivity|].
    apply Z.log2_spec. lia. }
  destruct (hex_digits_aux_spec _ n "" Hf) as (d & Hd & Hall & Hlen & Hval & Hk & Hlead).
  rewrite Hd, app_empty_r. repeat split; auto.
  unfold hex_value. rewrite Hval. lia.
Qed.

Lemma hex_digits_no_sign (n : Z) :
  0 <= n ->
  forall c r, hex_digits n = String c r -> Ascii.eqb c "+" || Ascii.eqb c "-" = false.
Proof.
  intros Hn c r E. destruct (hex_digits_spec n Hn) as (Hall & _).
  rewrite E in Hall. simpl in Hall. apply andb_true_iff in Hall as [Hc _].
  now apply lower_hex_not_sign.
Qed.

End PyStrFacts.

(** ** The state monad and the trace *)
Section MonadFacts.
Local Open Scope list_scope.

Lemma bind_ret_inv {A B : Type} (m : M A) (k : A -> M B) (st st' : state) (b : B) :
  bind m k st = (Ret b, st') ->
  exists a st1, m st = (Ret a, st1) /\ k a st1 = (Ret b, st').
Proof.
  unfold bind. destruct (m st) as [[a|e] st1]; intros H.
  - now exists a, st1.
  - discriminate H.
Qed.

Lemma bind_ret_eq {A B : Type} (m : M A) (k : A -> M B) (st st1 : state) (a : A) :
  m st = (Ret a, st1) -> bind m k st = k a st1.
Proof. unfold bind. now intros ->. Qed.

Lemma bind_raise_eq {A B : Type} (m : M A) (k : A -> M B) (st st1 : state) (e : exn) :
  m st = (Raise e, st1) -> bind m k st = (Raise e, st1).
Proof. unfold bind. now intros ->. Qed.

Lemma bind_assoc {A B C : Type} (m : M A) (k : A -> M B) (h : B -> M C) (st : state) :
  bind (bind m k) h st = bind m (fun a => bind (k a) h) st.
Proof. unfold bind. destruct (m st) as [[a|e] st1]; reflexivity. Qed.

Variable P : event -> Prop.

Lemma quiet_ret {A : Type} (a : A) : quiet P (ret a).
Proof. intros st. split; [reflexivity|]. exists []. now rewrite app_nil_r. Qed.

Lemma quiet_raise {A : Type} (e : exn) : quiet P (@raise A e).
Proof. intros st. split; [reflexivity|]. exists []. now rewrite app_nil_r. Qed.

Lemma quiet_lift {A : Type} (o : outcome A) : quiet P (lift o).
Proof. intros st. split; [reflexivity|]. exists []. now rewrite app_nil_r. Qed.

Lemma quiet_get_contracts : quiet P get_contracts.
Proof. intros st. split; [reflexivity|]. exists []. now rewrite app_nil_r. Qed.

Lemma quiet_emit (e : event) : P e -> quiet P (emit e).
Proof. intros He st. split; [reflexivity|]. exists [e]. split; [reflexivity | now constructor]. Qed.

Lemma quiet_print (line : string) : P (EvPrint line) -> quiet P (print line).
Proof. apply quiet_emit. Qed.

Lemma print_with_printable (texts : list string) (line : string) :
  forallb PyStr.printable texts = true -> print_with texts line = print line.
Proof. intros H. unfold print_with. now rewrite H. Qed.

Lemma print_with_surrogate (texts : list string) (line : string) :
  forallb PyStr.printable texts = false ->
  print_with texts line = raise UnicodeEncodeError.
Proof. intros H. unfold print_with. now rewrite H. Qed.

Lemma quiet_print_with (texts : list string) (line : string) :
  P (EvPrint line) -> quiet P (print_with texts line).
Proof.
  intros H. unfold print_with.
  destruct (forallb PyStr.printable texts); [now apply quiet_print | apply quiet_raise].
Qed.

Lemma quiet_call {A : Type} (p : event -> bool) (e : event) (answer : nat -> outcome A) :
  P e -> quiet P (call p e answer).
Proof. intros He st. split; [reflexivity|]. exists [e]. split; [reflexivity | now constructor]. Qed.

Lemma quiet_bind {A B : Type} (m : M A) (k : A -> M B) :
  quiet P m -> (forall a, quiet P (k a)) -> quiet P (bind m k).
Proof.
  intros Hm Hk st. unfold bind.
  destruct (Hm st) as (Hc & added & Ht & Hall).
  destruct (m st) as [[a|e] st1]; cbn [snd] in *.
  - destruct (Hk a st1) as (Hc' & added' & Ht' & Hall').
    split; [congruence|].
    exists (added ++ added'). rewrite Ht', Ht, List.app_assoc.
    split; [reflexivity | now apply Forall_app].
  - split; [assumption|]. now exists added.
Qed.

Lemma quiet_try_except {A : Type} (m : M A) (handler : exn -> option (M A)) :
  quiet P m -> (forall e k, handler e = Some k -> quiet P k) ->
  quiet P (try_except m handler).
Proof.
  intros Hm Hh st. unfold try_except.
  destruct (Hm st) as (Hc & added & Ht & Hall).
  destruct (m st) as [[a|e] st1]; cbn [snd] in *.
  - split; [assumption|]. now exists added.
  - destruct (handler e) as [k|] eqn:Ek; cbn [snd].
    + destruct (Hh e k Ek st1) as (Hc' & added' & Ht' & Hall').
      split; [congruence|].
      exists (added ++ added'). rewrite Ht', Ht, List.app_assoc.
      split; [reflexivity | now apply Forall_app].
    + split; [assumption|]. now exists added.
Qed.

End MonadFacts.

(** ** Argument encoder *)
Section Encoder.
Import PyStr PyStrFacts.

(** For a non-negative [val], [encode_uint256] is the digits of [val]
    with zeros in front up to 64 characters; longer digit strings come out
    whole. *)
Lemma encode_uint256_nonneg (val : Z) :
  0 <= val ->
  encode_uint256 val
  = repeat_char "0" (64 - String.length (hex_digits val)) ++ hex_digits val.
Proof.
  intros Hv. unfold encode_uint256, hex.
  destruct (Z.ltb_spec val 0) as [Hneg|_]; [lia|].
  cbn [String.append drop].
  apply zfill_no_sign. now apply hex_digits_no_sign.
Qed.

(** C6 (as amended): for every integer [0 <= val < 2^256], [encode_uint256]
    returns exactly 64 hexadecimal characters: the hexadecimal digits of
    [val] with zeros in front up to 64 characters, a text whose value in
    base 16 is [val]. *)
Theorem encode_uint256_64_hex (val : Z) :
  0 <= val < 2 ^ 256 ->
  String.length (encode_uint256 val) = 64%nat
  /\ all is_lower_hex (encode_uint256 val) = true
  /\ encode_uint256 val
     = repeat_char "0" (64 - String.length (hex_digits val)) ++ hex_digits val
  /\ hex_value (encode_uint256 val) = val.
Proof.
  intros [Hlo Hhi].
  destruct (hex_digits_spec val Hlo) as (Hall & Hlen1 & Hval & Hk & _).
  assert (Hlen : (String.length (hex_digits val) <= 64)%nat).
  { apply Hk; [lia|]. change (16 ^ Z.of_nat 64) with (2 ^ 256). exact Hhi. }
  rewrite (encode_uint256_nonneg val Hlo).
  rewrite length_app, length_repeat_char, all_app, hex_value_zeros.
  rewrite (all_repeat_char is_lower_hex "0" _ eq_refl), Hall.
  repeat split; try reflexivity; try assumption. lia.
Qed.

Lemma encode_uint256_64_hex_witness :
  0 <= 500000000000000 < 2 ^ 256
  /\ String.length (encode_uint256 500000000000000) = 64%nat.
Proof.
  split; [split; [lia | reflexivity]|].
  apply (encode_uint256_64_hex 500000000000000).
  split; [lia | reflexivity].
Defined.

(** C6 (as stated) fails at [2^256]: the result has 65 characters. *)
Lemma encode_uint256_overlong :
  0 <= 2 ^ 256
  /\ String.length (encode_uint256 (2 ^ 256)) = 65%nat
  /\ String.length (encode_uint256 (2 ^ 256)) <> 64%nat.
Proof. split; [lia|]. split; [reflexivity|]. vm_compute. discriminate. Qed.

(** C5 (as amended): for every negative [val], [encode_uint256] raises
    nothing and returns a text: zeros up to 64 characters, then the letter
    [x] left over from the ["-0x"] of [hex(val)], then the hexadecimal
    digits of [-val].  The text is not made of hexadecimal digits. *)
Theorem encode_uint256_negative (val : Z) :
  val < 0 ->
  encode_uint256 val
  = repeat_char "0" (64 - S (String.length (hex_digits (- val))))
    ++ String "x" (hex_digits (- val))
  /\ all is_hex (encode_uint256 val) = false.
Proof.
  intros Hv.
  assert (E : encode_uint256 val
              = repeat_char "0" (64 - S (String.length (hex_digits (- val))))
                ++ String "x" (hex_digits (- val))).
  { unfold encode_uint256, hex.
    destruct (Z.ltb_spec val 0) as [_|Hge]; [|lia].
    cbn [String.append drop].
    rewrite zfill_no_sign; [reflexivity|].
    intros c r H. injection H as <- _. reflexivity. }
  split; [exact E|].
  rewrite E, all_app. cbn [all].
  replace (is_hex "x") with false by reflexivity.
  cbn [andb]. apply andb_false_r.
Qed.

Lemma encode_uint256_negative_witness :
  -500 < 0
  /\ encode_uint256 (-500) = repeat_char "0" 60 ++ "x1f4"
  /\ all is_hex (encode_uint256 (-500)) = false.
Proof.
  split; [lia|].
  exact (encode_uint256_negative (-500) eq_refl).
Defined.

(** C5 (as stated) fails at [-1]: the call returns a text of 64
    characters. *)
Lemma encode_uint256_minus_one :
  -1 < 0 /\ encode_uint256 (-1) = repeat_char "0" 62 ++ "x1".
Proof. split; [lia | reflexivity]. Qed.

(** C7: for a 20-byte address, 40 hexadecimal digits in any letter case,
    with or without a leading ["0x"] (or ["0X"]), [encode_address] returns
    exactly 64 characters of [0-9a-f]: the digits in lower case behind 24
    zeros. *)
Theorem encode_address_valid (pre body : string) :
  pre = "" \/ pre = "0x" \/ pre = "0X" ->
  String.length body = 40%nat ->
  all is_hex body = true ->
  encode_address (pre ++ body) = repeat_char "0" 24 ++ lower body
  /\ String.length (encode_address (pre ++ body)) = 64%nat
  /\ all is_lower_hex (encode_address (pre ++ body)) = true.
Proof.
  intros Hpre Hlen Hhex.
  pose proof (lower_all_hex body Hhex) as Hlow.
  assert (Hrep : replace "0x" "" (lower (pre ++ body)) = lower body).
  { rewrite lower_app. unfold replace.
    destruct Hpre as [-> | [-> | ->]].
    - cbn [lower String.append]. now apply replace_0x_lower_hex.
    - change (lower "0x") with "0x". rewrite replace_0x_prefix.
      now apply replace_0x_lower_hex.
    - change (lower "0X") with "0x". rewrite replace_0x_prefix.
      now apply replace_0x_lower_hex. }
  assert (E : encode_address (pre ++ body) = repeat_char "0" 24 ++ lower body).
  { unfold encode_address. rewrite Hrep, zfill_no_sign.
    - now rewrite length_lower, Hlen.
    - intros c r H. rewrite H in Hlow. cbn [all] in Hlow.
      apply andb_true_iff in Hlow as [Hc _]. now apply lower_hex_not_sign. }
  rewrite E, length_app, length_repeat_char, length_lower, Hlen, all_app, Hlow.
  repeat split; reflexivity.
Qed.

Lemma encode_address_valid_witness :
  encode_address DEPLOYER
  = repeat_char "0" 24 ++ "00cc14af7d9ce9be4fdf9ae858632a00287ede11"
  /\ String.length (encode_address DEPLOYER) = 64%nat
  /\ all is_lower_hex (encode_address DEPLOYER) = true.
Proof.
  apply (encode_address_valid "0x" "00CC14AF7d9ce9Be4fdf9aE858632a00287edE11").
  - right; left; reflexivity.
  - reflexivity.
  - reflexivity.
Defined.

(** C8 (as amended): [encode_uint256(0)] is 64 zeros, and
    [encode_uint256(500000000000000)] is 51 zeros followed by the 13
    digits [1c6bf52634000]. *)
Theorem encode_uint256_known_values :
  encode_uint256 0 = repeat_char "0" 64
  /\ encode_uint256 500000000000000 = repeat_char "0" 51 ++ "1c6bf52634000"
  /\ hex_value "1c6bf52634000" = 500000000000000.
Proof. repeat split; reflexivity. Qed.

(** C8 (as stated) fails on its second value: 50 zeros followed by
    [1c6bf526340000] is not what the call returns; that text is the
    encoding of a value sixteen times larger. *)
Lemma encode_uint256_price_literal :
  encode_uint256 500000000000000 <> repeat_char "0" 50 ++ "1c6bf526340000"
  /\ hex_value "1c6bf526340000" = 16 * 500000000000000.
Proof. split; [vm_compute; discriminate | reflexivity]. Qed.

End Encoder.

(** ** Constructor arguments *)

(** C1: on the fixed registry, [compute_constructor_args] sets the [args]
    of ClawRegistry to ["0x"], the encoded renderer address, the encoded
    price and the encoded deployer address, and the [args] of ClawEvolution
    and ClawReputation to ["0x"] and the encoded registry address; a second
    invocation leaves the registry exactly as the first one made it. *)
Theorem compute_constructor_args_spec :
  exists renderer registry_entry st1,
    dict_get CONTRACTS "ClawRenderer" = Some renderer
    /\ dict_get CONTRACTS "ClawRegistry" = Some registry_entry
    /\ compute_constructor_args initial = (Ret tt, st1)
    /\ option_map args (dict_get (contracts st1) "ClawRegistry")
       = Some (Some ("0x" ++ encode_address (address renderer)
                         ++ encode_uint256 500000000000000
                         ++ encode_address DEPLOYER))
    /\ option_map args (dict_get (contracts st1) "ClawEvolution")
       = Some (Some ("0x" ++ encode_address (address registry_entry)))
    /\ option_map args (dict_get (contracts st1) "ClawReputation")
       = Some (Some ("0x" ++ encode_address (address registry_entry)))
    /\ option_map address (dict_get (contracts st1) "ClawRenderer")
       = Some (address renderer)
    /\ option_map address (dict_get (contracts st1) "ClawRegistry")
       = Some (address registry_entry)
    /\ compute_constructor_args st1 = (Ret tt, st1)
    /\ contracts st1 = CONTRACTS_resolved
    /\ trace st1 = [].
Proof.
  do 3 eexists. repeat split; vm_compute; reflexivity.
Qed.

(** ** Polling *)
Section Polling.
Local Open Scope list_scope.

Lemma count_app (p : event -> bool) (t u : list event) :
  count p (t ++ u) = (count p t + count p u)%nat.
Proof. unfold count. now rewrite filter_app, length_app. Qed.

Variable env : Env.

Lemma wait_loop_pending (verification_id : Z) (max_retries : nat) :
  forall (remaining i : nat) (st : state),
    (forall k, (k < remaining)%nat ->
       pending_at env (count is_get (trace st) + k)
                  (VERIFY_URL ++ "/" ++ PyStr.str_int verification_id)%string) ->
    exists st',
      wait_loop env verification_id max_retries remaining i st
      = (Ret (false, Some (JStr "Timeout waiting for verification")), st')
      /\ count is_get (trace st') = (count is_get (trace st) + remaining)%nat
      /\ count is_post (trace st') = count is_post (trace st)
      /\ count is_sleep (trace st') = (count is_sleep (trace st) + remaining)%nat
      /\ contracts st' = contracts st.
Proof.
  induction remaining as [|r IH]; intros i st Hp.
  - exists st. cbn. repeat split; lia.
  - destruct (Hp 0%nat ltac:(lia)) as (reply & status & Hget & Hst & Hs & Hf & Hpr).
    rewrite Nat.add_0_r in Hget.
    cbn [wait_loop].
    unfold bind at 1. cbn [emit].
    unfold bind at 1. unfold check_status, call. cbn [trace contracts].
    rewrite count_app. cbn [count filter is_get List.length]. rewrite Nat.add_0_r.
    rewrite Hget.
    unfold bind at 1. unfold lift. rewrite Hst.
    rewrite Hs, Hf.
    unfold bind at 1.
    set (line := if eq_str status "in_progress" || eq_str status "queued"
                 then _ else _).
    assert (Hline : exists text, line = print text).
    { subst line. destruct (eq_str status "in_progress" || eq_str status "queued");
        (rewrite print_with_printable by (cbn [forallb]; now rewrite Hpr));
        eexists; reflexivity. }
    destruct Hline as [text ->]. cbn [print emit trace contracts].
    match goal with
    | |- context [wait_loop _ _ _ r (S i) ?s] => destruct (IH (S i) s) as (st' & Hrun & Hg & Hpo & Hsl & Hc)
    end.
    + intros k Hk. cbn [trace]. rewrite !count_app. cbn.
      replace (count is_get (trace st) + 0 + 1 + 0 + k)%nat
        with (count is_get (trace st) + S k)%nat by lia.
      apply Hp. lia.
    + exists st'. rewrite Hrun. cbn [trace contracts] in *.
      rewrite !count_app in Hg, Hpo, Hsl. cbn in Hg, Hpo, Hsl.
      repeat split; try lia. exact Hc.
Qed.

End Polling.

(** C3 (as amended): when none of the first 15 poll answers has status
    [successful] or [failed] and each of these statuses can be printed,
    [wait_for_verification] with the default [max_retries] returns
    [(False, "Timeout waiting for verification")] after exactly 15 polls
    (and 15 sleeps), and raises nothing. *)
Theorem wait_for_verification_timeout (env : Env) (verification_id : Z)
    (contract_name : string) (st : state) :
  (forall k, (k < 15)%nat ->
     pending_at env (count is_get (trace st) + k)
                (VERIFY_URL ++ "/" ++ PyStr.str_int verification_id)) ->
  exists st',
    wait_for_verification env verification_id contract_name default_max_retries st
    = (Ret (false, Some (JStr "Timeout waiting for verification")), st')
    /\ count is_get (trace st') = (count is_get (trace st) + 15)%nat
    /\ count is_sleep (trace st') = (count is_sleep (trace st) + 15)%nat
    /\ count is_post (trace st') = count is_post (trace st)
    /\ contracts st' = contracts st.
Proof.
  intros Hp.
  destruct (wait_loop_pending env verification_id default_max_retries
              default_max_retries 0 st Hp) as (st' & Hrun & Hg & Hpo & Hsl & Hc).
  exists st'. unfold wait_for_verification. now rewrite Hrun.
Qed.

Lemma wait_for_verification_timeout_witness :
  exists st',
    wait_for_verification Samples.always_in_progress 101 "ClawRegistry"
      default_max_retries initial
    = (Ret (false, Some (JStr "Timeout waiting for verification")), st')
    /\ count is_get (trace st') = (count is_get (trace initial) + 15)%nat
    /\ count is_sleep (trace st') = (count is_sleep (trace initial) + 15)%nat
    /\ count is_post (trace st') = count is_post (trace initial)
    /\ contracts st' = contracts initial.
Proof.
  apply (wait_for_verification_timeout Samples.always_in_progress 101
           "ClawRegistry" initial).
  intros k _. exists (Samples.status "in_progress"), (JStr "in_progress").
  repeat split; reflexivity.
Defined.

(** ** The run *)

Ltac run :=
  cbn [bind ret raise lift emit print call get_contracts put_contracts
       fst snd trace contracts].

(** The lines the script prints before the report differ from the header
    of the report in their first four bytes. *)
Ltac not_report_line :=
  let H := fresh in
  intros H;
  apply (f_equal (fun e => match e with
                           | EvPrint line => PyStr.take 4 line
                           | _ => EmptyString
                           end)) in H;
  vm_compute in H; discriminate H.

Ltac quiet_step :=
  lazymatch goal with
  | |- quiet _ (bind _ _) => apply quiet_bind; [|intros]
  | |- quiet _ (ret _) => apply quiet_ret
  | |- quiet _ (raise _) => apply quiet_raise
  | |- quiet _ (lift _) => apply quiet_lift
  | |- quiet _ get_contracts => apply quiet_get_contracts
  | |- quiet _ (print _) => apply quiet_print
  | |- quiet _ (print_with _ _) => apply quiet_print_with
  | |- quiet _ (emit _) => apply quiet_emit
  | |- quiet _ (call _ _ _) => apply quiet_call
  | |- quiet _ (match ?x with _ => _ end) => destruct x
  | |- not_report _ => first [discriminate | not_report_line]
  end.

Section Run.
Local Open Scope list_scope.

Variable env : Env.

Lemma quiet_load_build_info : quiet not_report (load_build_info env).
Proof. unfold load_build_info. repeat quiet_step. Qed.

Lemma quiet_load_source_code : quiet not_report (load_source_code env).
Proof.
  unfold load_source_code.
  apply quiet_bind; [apply quiet_load_build_info | intros].
  repeat quiet_step.
Qed.

Lemma quiet_get_zksolc_version : quiet not_report (get_zksolc_version env).
Proof.
  unfold get_zksolc_version.
  apply quiet_bind; [apply quiet_load_build_info | intros].
  repeat quiet_step.
Qed.

Lemma quiet_submit_verification name info sc sv zv :
  quiet not_report (submit_verification env name info sc sv zv).
Proof.
  unfold submit_verification. apply quiet_try_except.
  - repeat quiet_step.
  - intros e k H. destruct e; try discriminate H.
    injection H as <-. repeat quiet_step.
Qed.

Lemma quiet_wait_loop vid max_retries :
  forall remaining i, quiet not_report (wait_loop env vid max_retries remaining i).
Proof.
  induction remaining as [|r IH]; intros i; cbn [wait_loop].
  - apply quiet_ret.
  - unfold check_status. repeat quiet_step. apply IH.
Qed.

Lemma quiet_verify_contract sc sv zv name info results :
  quiet not_report (verify_contract env sc sv zv name info results).
Proof.
  unfold verify_contract.
  apply quiet_bind; [repeat quiet_step | intros].
  destruct (args info) as [hexargs|]; [|apply quiet_raise].
  apply quiet_bind; [repeat quiet_step | intros].
  apply quiet_bind; [apply quiet_submit_verification | intros vid].
  destruct vid as [vid|]; [|apply quiet_ret].
  apply quiet_bind; [repeat quiet_step | intros].
  apply quiet_bind; [apply quiet_wait_loop | intros].
  repeat quiet_step.
Qed.

Lemma quiet_verify_all sc sv zv :
  forall items results, quiet not_report (verify_all env sc sv zv items results).
Proof.
  induction items as [|[name info] rest IH]; intros results; cbn [verify_all].
  - apply quiet_ret.
  - apply quiet_bind; [apply quiet_verify_contract | intros; apply IH].
Qed.

(** [main] starts with the banner and the constructor arguments; nothing
    of that depends on the outside world. *)
Lemma main_setup_start :
  main_setup env initial
  = (' (source_code, solc_version) <- load_source_code env ;;
     zksolc_version <- get_zksolc_version env ;;
     print_with [zksolc_version; py_str solc_version]
       ("Compiler: zksolc " ++ zksolc_version ++ ", solc "
        ++ py_str solc_version)%string ;;;
     print "" ;;;
     ret (source_code, solc_version, zksolc_version)) after_banner.
Proof. reflexivity. Qed.

(** After the setup the registry is resolved and the header of the report
    has not been printed. *)
Lemma main_setup_state :
  contracts (snd (main_setup env initial)) = CONTRACTS_resolved
  /\ Forall not_report (trace (snd (main_setup env initial))).
Proof.
  rewrite main_setup_start.
  match goal with
  | |- context [snd (?m after_banner)] =>
      assert (Hq : quiet not_report m)
  end.
  { apply quiet_bind; [apply quiet_load_source_code | intros].
    destruct a.
    apply quiet_bind; [apply quiet_get_zksolc_version | intros].
    repeat quiet_step. }
  destruct (Hq after_banner) as (Hc & added & Ht & Hall).
  split; [exact Hc|].
  rewrite Ht. apply Forall_app. split; [|exact Hall].
  repeat constructor; not_report_line.
Qed.

(** *** Dictionaries *)

Lemma dict_get_set_same {V : Type} (d : list (string * V)) (k : string) (v : V) :
  dict_get (dict_set d k v) k = Some v.
Proof.
  induction d as [|[k' w] r IH]; cbn [dict_set dict_get].
  - now rewrite String.eqb_refl.
  - destruct (String.eqb_spec k' k) as [E|N]; cbn [dict_get].
    + subst k'. now rewrite String.eqb_refl.
    + destruct (String.eqb_spec k' k) as [E|_]; [contradiction | exact IH].
Qed.

Lemma dict_get_set_other {V : Type} (d : list (string * V)) (k k' : string) (v : V) :
  k <> k' -> dict_get (dict_set d k v) k' = dict_get d k'.
Proof.
  intros N. induction d as [|[k0 w] r IH]; cbn [dict_set dict_get].
  - destruct (String.eqb_spec k k') as [E|_]; [contradiction | reflexivity].
  - destruct (String.eqb_spec k0 k) as [E|N0]; cbn [dict_get].
    + subst k0. destruct (String.eqb_spec k k') as [E|_]; [contradiction | reflexivity].
    + now rewrite IH.
Qed.


Lemma all_verified_iff (results : results_dict) :
  all_verified results = true
  <-> (forall name result, In (name, result) results -> result = "VERIFIED"%string).
Proof.
  unfold all_verified. rewrite forallb_forall. split.
  - intros H name result Hin. apply String.eqb_eq. exact (H (name, result) Hin).
  - intros H [name result] Hin. apply String.eqb_eq. exact (H name result Hin).
Qed.

(** *** The report *)

Lemma print_results_runs (results : results_dict) :
  printable_results results = true ->
  forall st, exists added,
    print_results results st
    = (Ret tt, {| contracts := contracts st; trace := trace st ++ added |}).
Proof.
  induction results as [|[name result] rest IH]; intros Hp st; cbn [print_results].
  - exists []. rewrite app_nil_r. now destruct st.
  - cbn [printable_results forallb snd] in Hp. apply andb_true_iff in Hp as [Hr Hrest].
    rewrite print_with_printable by (cbn [forallb]; now rewrite Hr).
    run.
    match goal with
    | |- context [print_results rest ?s] => destruct (IH Hrest s) as [added ->]
    end.
    cbn [trace contracts]. eexists. rewrite <- List.app_assoc. reflexivity.
Qed.

(** [report] prints the header first; with entries that can be printed it
    returns the conjunction of the entries. *)
Lemma report_runs (results : results_dict) (st : state) :
  printable_results results = true ->
  exists st',
    report results st = (Ret (all_verified results), st')
    /\ In (EvPrint report_header) (trace st').
Proof.
  intros Hp. unfold report. run.
  match goal with
  | |- context [bind (print_results results) _ ?s] =>
      destruct (print_results_runs results Hp s) as [added Hr];
      rewrite (bind_ret_eq _ _ _ _ _ Hr)
  end.
  run. eexists. split; [reflexivity|].
  cbn [trace]. rewrite !in_app_iff. cbn. tauto.
Qed.

Lemma print_results_outcome (results : results_dict) (st : state) :
  fst (print_results results st) = Ret tt
  \/ fst (print_results results st) = Raise UnicodeEncodeError.
Proof.
  revert st. induction results as [|[name result] rest IH]; intros st;
    cbn [print_results]; [now left|].
  unfold print_with. destruct (forallb PyStr.printable [result]).
  - run. apply IH.
  - now right.
Qed.

(** Whatever the entries, [report] returns their conjunction or raises. *)
Lemma report_outcome (results : results_dict) (st : state) :
  fst (report results st) = Ret (all_verified results)
  \/ fst (report results st) = Raise UnicodeEncodeError.
Proof.
  unfold report. run.
  match goal with
  | |- context [bind (print_results results) _ ?s] =>
      destruct (print_results_outcome results s) as [H|H];
      unfold bind; destruct (print_results results s) as [[[]|e] s'];
      cbn [fst] in H |- *; try discriminate H
  end.
  - now left.
  - right. now injection H as ->.
Qed.

(** *** The loop over the registry *)

Lemma verify_all_app sc sv zv (a b : registry) :
  forall results st,
    verify_all env sc sv zv (a ++ b) results st
    = bind (verify_all env sc sv zv a results)
           (fun results' => verify_all env sc sv zv b results') st.
Proof.
  induction a as [|[name info] rest IH]; intros results st.
  - reflexivity.
  - cbn [verify_all app]. rewrite bind_assoc.
    destruct (verify_contract env sc sv zv name info results st) as [[r|e] st1] eqn:E.
    + rewrite !(bind_ret_eq _ _ _ _ _ E). apply IH.
    + now rewrite !(bind_raise_eq _ _ _ _ _ E).
Qed.

Lemma print_with_ret_inv (texts : list string) (line : string) (st st' : state) :
  print_with texts line st = (Ret tt, st') ->
  forallb PyStr.printable texts = true
  /\ st' = {| contracts := contracts st; trace := trace st ++ [EvPrint line] |}.
Proof.
  unfold print_with. destruct (forallb PyStr.printable texts); intros H.
  - split; [reflexivity|]. now injection H as <-.
  - discriminate H.
Qed.

Lemma has_surrogate_ascii (c : ascii) (r : string) :
  (N_of_ascii c <? 128)%N = true ->
  PyStr.has_surrogate (String c r) = PyStr.has_surrogate r.
Proof.
  intros Hc. cbn [PyStr.has_surrogate].
  assert (E : forall d, PyStr.is_surrogate_lead c d = false).
  { intros d. unfold PyStr.is_surrogate_lead.
    destruct (N.eqb_spec (N_of_ascii c) 237) as [E|_]; [|reflexivity].
    rewrite E in Hc. discriminate Hc. }
  destruct r as [|d r']; [reflexivity|]. now rewrite E.
Qed.

(** An ASCII text in front does not change whether a text can be
    printed. *)
Lemma printable_ascii_prefix (p e : string) :
  PyStr.all (fun c => (N_of_ascii c <? 128)%N) p = true ->
  PyStr.printable (p ++ e) = PyStr.printable e.
Proof.
  unfold PyStr.printable. induction p as [|c p IH]; cbn [PyStr.all String.append].
  - reflexivity.
  - intros H. apply andb_true_iff in H as [Hc Hp].
    rewrite has_surrogate_ascii by exact Hc. exact (IH Hp).
Qed.

(** An iteration that ends normally has stored one entry under the name
    of its contract, a text that can be printed. *)
Lemma verify_contract_result sc sv zv name info results st results' st' :
  verify_contract env sc sv zv name info results st = (Ret results', st') ->
  exists v, results' = dict_set results name v /\ PyStr.printable v = true.
Proof.
  unfold verify_contract. intros H.
  apply bind_ret_inv in H as (? & s1 & _ & H).
  destruct (args info) as [hexargs|]; [|discriminate H].
  apply bind_ret_inv in H as (? & s2 & _ & H).
  apply bind_ret_inv in H as (vid & s3 & _ & H).
  destruct vid as [vid|].
  - apply bind_ret_inv in H as (? & s4 & _ & H).
    apply bind_ret_inv in H as ([success error] & s5 & _ & H).
    destruct success.
    + apply bind_ret_inv in H as (? & s6 & _ & H).
      apply bind_ret_inv in H as (? & s7 & _ & H).
      apply bind_ret_inv in H as (? & s8 & _ & H).
      injection H as <- _. eexists; split; reflexivity.
    + apply bind_ret_inv in H as ([] & s6 & Hpr & H).
      apply print_with_ret_inv in Hpr as [Hpr _].
      cbn [forallb] in Hpr. rewrite andb_true_r in Hpr.
      apply bind_ret_inv in H as (? & s7 & _ & H).
      injection H as <- _. eexists; split; [reflexivity|].
      change (PyStr.printable ("FAILED: " ++ str_error error) = true).
      now rewrite printable_ascii_prefix.
  - injection H as <- _. eexists; split; reflexivity.
Qed.

Lemma printable_results_set (results : results_dict) (name v : string) :
  printable_results results = true -> PyStr.printable v = true ->
  printable_results (dict_set results name v) = true.
Proof.
  intros Hr Hv. induction results as [|[k w] r IH]; cbn [dict_set].
  - cbn. now rewrite Hv.
  - cbn [printable_results forallb snd] in Hr. apply andb_true_iff in Hr as [Hw Hrest].
    destruct (String.eqb k name); cbn [printable_results forallb snd].
    + now rewrite Hv.
    + rewrite Hw. exact (IH Hrest).
Qed.

(** The loop only stores entries that can be printed. *)
Lemma verify_all_printable sc sv zv :
  forall items results st results' st',
    printable_results results = true ->
    verify_all env sc sv zv items results st = (Ret results', st') ->
    printable_results results' = true.
Proof.
  induction items as [|[name info] rest IH]; intros results st results' st' Hp H;
    cbn [verify_all] in H.
  - now injection H as <- _.
  - apply bind_ret_inv in H as (r1 & s1 & H1 & H).
    apply verify_contract_result in H1 as (v & -> & Hv).
    exact (IH _ _ _ _ (printable_results_set _ _ _ Hp Hv) H).
Qed.

Lemma verify_all_results sc sv zv :
  forall items results st results' st',
    verify_all env sc sv zv items results st = (Ret results', st') ->
    exists entries,
      map fst entries = map fst items
      /\ results' = fold_left (fun acc kv => dict_set acc (fst kv) (snd kv))
                              entries results.
Proof.
  induction items as [|[name info] rest IH]; intros results st results' st' H;
    cbn [verify_all] in H.
  - injection H as <- _. now exists [].
  - apply bind_ret_inv in H as (r1 & s1 & H1 & H).
    apply verify_contract_result in H1 as (v & -> & _).
    apply IH in H as (entries & Hk & ->).
    exists ((name, v) :: entries). cbn. now rewrite Hk.
Qed.


End Run.

(** *** Submission *)
Section Submit.
Local Open Scope list_scope.

Variable env : Env.
Variables (name : string) (info : contract_info) (sc sv : json) (zv : string).

(** A submission that is answered with an id returns it. *)
Lemma submit_verification_accepted (st : state) (vid : Z) :
  urlopen_post env (count is_post (trace st)) VERIFY_URL
    (verification_request name info sc sv zv) = Ret vid ->
  submit_verification env name info sc sv zv st
  = (Ret (Some vid),
     {| contracts := contracts st; trace := trace st ++ [EvPost VERIFY_URL (verification_request name info sc sv zv)] |}).
Proof.
  intros H. unfold submit_verification, try_except. run.
  now rewrite H.
Qed.




End Submit.

Section Main.
Local Open Scope list_scope.

Variable env : Env.

Lemma main_results_unfold sc sv zv st0 :
  main_setup env initial = (Ret (sc, sv, zv), st0) ->
  main_results env initial = verify_all env sc sv zv CONTRACTS_resolved [] st0.
Proof.
  intros H. unfold main_results. rewrite (bind_ret_eq _ _ _ _ _ H). run.
  pose proof (main_setup_state env) as [Hc _]. rewrite H in Hc. cbn [snd] in Hc.
  now rewrite Hc.
Qed.

Lemma main_results_inv results st1 :
  main_results env initial = (Ret results, st1) ->
  exists sc sv zv st0,
    main_setup env initial = (Ret (sc, sv, zv), st0)
    /\ verify_all env sc sv zv CONTRACTS_resolved [] st0 = (Ret results, st1).
Proof.
  intros H. pose proof H as H'. unfold main_results in H'.
  apply bind_ret_inv in H' as ([[sc sv] zv] & st0 & Hs & _).
  exists sc, sv, zv, st0. split; [exact Hs|].
  now rewrite <- (main_results_unfold _ _ _ _ Hs).
Qed.

(** The report has one entry per contract, in the order of the registry. *)
Lemma main_results_keys results st1 :
  main_results env initial = (Ret results, st1) ->
  map fst results = map fst CONTRACTS.
Proof.
  intros H. apply main_results_inv in H as (sc & sv & zv & st0 & _ & H).
  apply verify_all_results in H as (entries & Hk & ->).
  cbn in Hk.
  destruct entries as [|[k1 v1] [|[k2 v2] [|[k3 v3] [|[k4 v4] [|]]]]];
    try discriminate Hk.
  cbn in Hk. injection Hk as -> -> -> ->. reflexivity.
Qed.

(** The entries of the report can be printed. *)
Lemma main_results_printable results st1 :
  main_results env initial = (Ret results, st1) ->
  printable_results results = true.
Proof.
  intros H. apply main_results_inv in H as (sc & sv & zv & st0 & _ & H).
  exact (verify_all_printable env sc sv zv _ [] _ _ _ eq_refl H).
Qed.

Lemma main_unfold results st1 :
  main_results env initial = (Ret results, st1) ->
  main env initial = report results st1.
Proof. intros H. unfold main. now rewrite (bind_ret_eq _ _ _ _ _ H). Qed.

Lemma main_raise e st1 :
  main_results env initial = (Raise e, st1) ->
  main env initial = (Raise e, st1).
Proof. intros H. unfold main. now rewrite (bind_raise_eq _ _ _ _ _ H). Qed.

(** C2: the exit status is 0 or 1, and it is 0 exactly when [main] gets
    to its report with one entry per contract of the registry, every one
    equal to ["VERIFIED"]; [main] returns the conjunction of the entries. *)
Theorem exit_code_zero_iff_all_verified :
  (exit_code env = 0 \/ exit_code env = 1)
  /\ (exit_code env = 0 <->
      exists results st,
        main_results env initial = (Ret results, st)
        /\ map fst results = map fst CONTRACTS
        /\ (forall name result,
              In (name, result) results -> result = "VERIFIED"%string))
  /\ (forall b st,
        main env initial = (Ret b, st) ->
        exists results st1,
          main_results env initial = (Ret results, st1)
          /\ b = all_verified results).
Proof.
  assert (Hret : forall b st,
             main env initial = (Ret b, st) ->
             exists results st1,
               main_results env initial = (Ret results, st1)
               /\ b = all_verified results).
  { intros b st H.
    destruct (main_results env initial) as [[results|e] st1] eqn:E.
    - rewrite (main_unfold _ _ E) in H.
      destruct (report_runs results st1 (main_results_printable _ _ E))
        as (st' & Hr & _).
      rewrite Hr in H. injection H as <- _. now exists results, st1.
    - rewrite (main_raise _ _ E) in H. discriminate H. }
  split; [|split; [|exact Hret]].
  - unfold exit_code. destruct (fst (main env initial)) as [[|]|]; auto.
  - split.
    + intros H. unfold exit_code in H.
      destruct (main env initial) as [[b|e] st] eqn:E; cbn [fst] in H;
        [|discriminate H].
      destruct b; [|discriminate H].
      destruct (Hret true st eq_refl) as (results & st1 & Hm & Hall).
      exists results, st1. split; [exact Hm|]. split.
      * exact (main_results_keys _ _ Hm).
      * now apply all_verified_iff.
    + intros (results & st1 & Hm & _ & Hall).
      unfold exit_code. rewrite (main_unfold _ _ Hm).
      destruct (report_runs results st1 (main_results_printable _ _ Hm))
        as (st' & Hr & _).
      rewrite Hr.
      cbn [fst]. apply all_verified_iff in Hall. now rewrite Hall.
Qed.

(** C9: when the listing of the build-info directory has no name that
    ends in [.json], [load_source_code] raises ([IndexError], from
    [files[0]]) and returns nothing; [main] stops there, before any POST or
    GET, and the exit status is 1. *)
Theorem no_build_info_fails_before_network (names : list string) :
  os_listdir env 0 build_dir = Ret names ->
  json_files names = [] ->
  (forall st,
     count is_listdir (trace st) = 0%nat ->
     load_source_code env st
     = (Raise IndexError,
        {| contracts := contracts st;
           trace := trace st ++ [EvListdir build_dir] |}))
  /\ (exists st',
        main env initial = (Raise IndexError, st')
        /\ trace st' = trace after_banner ++ [EvListdir build_dir]
        /\ count is_network (trace st') = 0%nat)
  /\ exit_code env = 1.
Proof.
  intros Hls Hnone.
  assert (Hload : forall st,
             count is_listdir (trace st) = 0%nat ->
             load_source_code env st
             = (Raise IndexError,
                {| contracts := contracts st;
                   trace := trace st ++ [EvListdir build_dir] |})).
  { intros st Hc. unfold load_source_code, load_build_info, bind, call.
    rewrite Hc, Hls, Hnone. reflexivity. }
  assert (Hmain : main env initial
                  = (Raise IndexError,
                     {| contracts := contracts after_banner;
                        trace := trace after_banner ++ [EvListdir build_dir] |})).
  { apply main_raise. unfold main_results. apply bind_raise_eq.
    rewrite main_setup_start. apply bind_raise_eq. now apply Hload. }
  split; [exact Hload|]. split.
  - eexists. split; [exact Hmain|]. split; reflexivity.
  - unfold exit_code. now rewrite Hmain.
Qed.

End Main.

Lemma no_build_info_fails_before_network_witness :
  os_listdir Samples.no_build_info 0 build_dir = Ret ["README.md"; "7f3a.dbg"]%string
  /\ json_files ["README.md"; "7f3a.dbg"]%string = []
  /\ exit_code Samples.no_build_info = 1.
Proof.
  split; [reflexivity|]. split; [reflexivity|].
  apply (no_build_info_fails_before_network Samples.no_build_info
           ["README.md"; "7f3a.dbg"]%string); reflexivity.
Defined.

(** *** One contract fails to submit *)
Section SubmitFailure.
Local Open Scope list_scope.

Variable env : Env.


Lemma quiet_Forall {A : Type} (P : event -> Prop) (m : M A) (st : state) :
  quiet P m -> Forall P (trace st) -> Forall P (trace (snd (m st))).
Proof.
  intros Hq Hall. destruct (Hq st) as (_ & added & -> & Hadd).
  apply Forall_app. now split.
Qed.

Lemma bind_print {A : Type} (line : string) (k : unit -> M A) (st : state) :
  bind (print line) k st
  = k tt {| contracts := contracts st; trace := trace st ++ [EvPrint line] |}.
Proof. reflexivity. Qed.

Lemma resolved_args (name : string) (info : contract_info) :
  In (name, info) CONTRACTS_resolved -> exists a, args info = Some a.
Proof.
  cbn. intros [H|[H|[H|[H|[]]]]]; injection H as _ <-; eexists; reflexivity.
Qed.


Variables (sc sv : json) (zv : string).





End SubmitFailure.

Section Orchestrator.
Local Open Scope list_scope.

Variable env : Env.
Variables (sc sv : json) (zv : string) (st0 : state).
Variables (pre post : registry) (name : string) (info : contract_info).
Variables (results1 : results_dict) (st1 : state).

(** The run gets through the setup and through the contracts before
    [name], which is the next one in the registry. *)
Hypothesis Hsetup : main_setup env initial = (Ret (sc, sv, zv), st0).
Hypothesis Hsplit : CONTRACTS_resolved = pre ++ (name, info) :: post.
Hypothesis Hpre : verify_all env sc sv zv pre [] st0 = (Ret results1, st1).

Lemma run_reaches_contract :
  main_results env initial
  = verify_all env sc sv zv ((name, info) :: post) results1 st1.
Proof.
  rewrite (main_results_unfold env _ _ _ _ Hsetup), Hsplit, verify_all_app.
  now rewrite (bind_ret_eq _ _ _ _ _ Hpre).
Qed.

Lemma contract_has_args : exists a, args info = Some a.
Proof.
  apply (resolved_args name). rewrite Hsplit. apply in_app_iff. right. now left.
Qed.


Lemma no_report_before_contract : Forall not_report (trace st1).
Proof.
  pose proof (main_setup_state env) as [_ H0]. rewrite Hsetup in H0. cbn [snd] in H0.
  pose proof (quiet_Forall not_report _ st0 (quiet_verify_all env sc sv zv pre []) H0) as H1.
  now rewrite Hpre in H1.
Qed.



End Orchestrator.

(** *** Sample runs *)




(** Four accepted submissions that all poll [successful]: exit status 0
    and four entries in the order of the registry. *)
Lemma all_successful_run :
  exit_code Samples.all_successful = 0
  /\ fst (main_results Samples.all_successful initial)
     = Ret [ ("ClawRenderer", "VERIFIED"); ("ClawRegistry", "VERIFIED");
             ("ClawEvolution", "VERIFIED"); ("ClawReputation", "VERIFIED") ]%string.
Proof. split; vm_compute; reflexivity. Qed.

(** Polls that stay [in_progress]: every entry is the timeout failure and
    the exit status is 1. *)
Lemma always_in_progress_run :
  exit_code Samples.always_in_progress = 1
  /\ count is_get (trace (snd (main Samples.always_in_progress initial))) = 60%nat
  /\ dict_get (match fst (main_results Samples.always_in_progress initial) with
               | Ret results => results
               | Raise _ => []
               end) "ClawRegistry"
     = Some "FAILED: Timeout waiting for verification"%string.
Proof. repeat split; vm_compute; reflexivity. Qed.

(** ** More on the argument encoder *)
Section EncoderMore.
Import PyStr PyStrFacts.

Lemma lower_char_lower_hex (c : ascii) :
  is_lower_hex c = true -> lower_char c = c.
Proof.
  destruct c as [[] [] [] [] [] [] [] []]; vm_compute; intros H;
    first [discriminate H | reflexivity].
Qed.

Lemma lower_lower_hex (s : string) :
  all is_lower_hex s = true -> lower s = s.
Proof.
  induction s as [|c s IH]; cbn [all lower]; [reflexivity|].
  intros H. apply andb_true_iff in H as [Hc Hs].
  now rewrite (lower_char_lower_hex c Hc), IH.
Qed.

Lemma lower_hex_no_sign_head (s : string) :
  all is_lower_hex s = true ->
  forall c r, s = String c r -> Ascii.eqb c "+" || Ascii.eqb c "-" = false.
Proof.
  intros Hs c r E. rewrite E in Hs. cbn [all] in Hs.
  apply andb_true_iff in Hs as [Hc _]. now apply lower_hex_not_sign.
Qed.

(** What is left of a prefixed text of hexadecimal digits after
    [lower()] and [replace("0x", "")]. *)
Lemma strip_prefixed_hex (pre body : string) :
  pre = "" \/ pre = "0x" \/ pre = "0X" ->
  all is_hex body = true ->
  replace "0x" "" (lower (pre ++ body)) = lower body.
Proof.
  intros Hpre Hhex. pose proof (lower_all_hex body Hhex) as Hlow.
  rewrite lower_app. unfold replace.
  destruct Hpre as [-> | [-> | ->]].
  - cbn [lower String.append]. now apply replace_0x_lower_hex.
  - change (lower "0x") with "0x". rewrite replace_0x_prefix.
    now apply replace_0x_lower_hex.
  - change (lower "0X") with "0x". rewrite replace_0x_prefix.
    now apply replace_0x_lower_hex.
Qed.

Lemma encode_address_hex (pre body : string) :
  pre = "" \/ pre = "0x" \/ pre = "0X" ->
  all is_hex body = true ->
  encode_address (pre ++ body)
  = repeat_char "0" (64 - String.length body) ++ lower body.
Proof.
  intros Hpre Hhex. pose proof (lower_all_hex body Hhex) as Hlow.
  unfold encode_address. rewrite (strip_prefixed_hex pre body Hpre Hhex).
  rewrite zfill_no_sign by now apply lower_hex_no_sign_head.
  now rewrite length_lower.
Qed.

(** X1: [encode_address] pads but never cuts: for hexadecimal digits of
    any length, with or without the prefix, the result is the lower-cased
    digits behind [64 - length] zeros, so a text longer than 64 digits comes
    out whole and unpadded. *)
Theorem encode_address_any_length (pre body : string) :
  pre = "" \/ pre = "0x" \/ pre = "0X" ->
  all is_hex body = true ->
  encode_address (pre ++ body)
  = repeat_char "0" (64 - String.length body) ++ lower body
  /\ String.length (encode_address (pre ++ body))
     = Nat.max 64 (String.length body)
  /\ all is_lower_hex (encode_address (pre ++ body)) = true.
Proof.
  intros Hpre Hhex. pose proof (lower_all_hex body Hhex) as Hlow.
  rewrite (encode_address_hex pre body Hpre Hhex).
  rewrite length_app, length_repeat_char, length_lower, all_app, Hlow.
  rewrite (all_repeat_char is_lower_hex "0" _ eq_refl).
  repeat split; try reflexivity. lia.
Qed.

Lemma encode_address_any_length_witness :
  encode_address "0xAb" = repeat_char "0" 62 ++ "ab"
  /\ String.length (encode_address "0xAb") = 64%nat
  /\ all is_lower_hex (encode_address "0xAb") = true.
Proof.
  apply (encode_address_any_length "0x" "Ab").
  - right; left; reflexivity.
  - reflexivity.
Defined.

(** X2: [encode_address] is idempotent on hexadecimal input: encoding an
    encoded address changes nothing. *)
Theorem encode_address_idempotent (pre body : string) :
  pre = "" \/ pre = "0x" \/ pre = "0X" ->
  all is_hex body = true ->
  encode_address (encode_address (pre ++ body)) = encode_address (pre ++ body).
Proof.
  intros Hpre Hhex.
  pose proof (lower_all_hex body Hhex) as Hlow.
  assert (Hall : all is_lower_hex (encode_address (pre ++ body)) = true).
  { rewrite (encode_address_hex pre body Hpre Hhex), all_app, Hlow.
    now rewrite (all_repeat_char is_lower_hex "0" _ eq_refl). }
  assert (Hlen : (64 <= String.length (encode_address (pre ++ body)))%nat).
  { unfold encode_address. rewrite length_zfill. lia. }
  set (r := encode_address (pre ++ body)) in *.
  unfold encode_address at 1. rewrite (lower_lower_hex r Hall).
  unfold replace. rewrite (replace_0x_lower_hex r Hall).
  rewrite zfill_no_sign by now apply lower_hex_no_sign_head.
  replace (64 - String.length r)%nat with 0%nat by lia. reflexivity.
Qed.

Lemma encode_address_idempotent_witness :
  encode_address (encode_address DEPLOYER) = encode_address DEPLOYER.
Proof.
  apply (encode_address_idempotent "0x" "00CC14AF7d9ce9Be4fdf9aE858632a00287edE11").
  - right; left; reflexivity.
  - reflexivity.
Defined.

Lemma replace_0x_inner (a b : string) :
  all is_lower_hex a = true ->
  replace_scan "0x" "" 0 (a ++ "0x" ++ b) = a ++ replace_scan "0x" "" 0 b.
Proof.
  induction a as [|c a IH]; intros Ha.
  - cbn [String.append]. change (String "0" (String "x" b)) with ("0x" ++ b).
    apply replace_0x_prefix.
  - cbn [all] in Ha. apply andb_true_iff in Ha as [Hc Ha].
    cbn [String.append replace_scan].
    assert (Hp : startswith (String c (a ++ String "0" (String "x" b))) "0x" = false).
    { cbn [startswith]. destruct a as [|d a']; cbn [String.append startswith].
      - apply andb_false_r.
      - cbn [all] in Ha. apply andb_true_iff in Ha as [Hd _].
        destruct (Ascii.eqb_spec "x" d) as [E|_].
        + subst d. discriminate Hd.
        + apply andb_false_r. }
    rewrite Hp. f_equal. exact (IH Ha).
Qed.

(** X3: the removal of ["0x"] is not limited to a prefix: an ["0x"]
    between two runs of hexadecimal digits is removed as well, and the two
    runs are encoded as one number. *)
Theorem encode_address_inner_0x (a b : string) :
  all is_hex a = true ->
  all is_hex b = true ->
  encode_address (a ++ "0x" ++ b)
  = repeat_char "0" (64 - (String.length a + String.length b))
    ++ lower a ++ lower b.
Proof.
  intros Ha Hb.
  pose proof (lower_all_hex a Ha) as Hla. pose proof (lower_all_hex b Hb) as Hlb.
  unfold encode_address, replace. rewrite !lower_app.
  change (lower "0x") with "0x".
  rewrite (replace_0x_inner (lower a) (lower b) Hla).
  rewrite (replace_0x_lower_hex (lower b) Hlb).
  rewrite zfill_no_sign.
  - now rewrite length_app, !length_lower.
  - apply lower_hex_no_sign_head. now rewrite all_app, Hla, Hlb.
Qed.

Lemma encode_address_inner_0x_witness :
  encode_address "120x34" = repeat_char "0" 60 ++ "1234".
Proof. apply (encode_address_inner_0x "12" "34"); reflexivity. Defined.

(** X4: for non-negative values [encode_uint256] loses nothing, also
    beyond [2^256]: the result read in base 16 is the value, so distinct
    values have distinct encodings. *)
Theorem encode_uint256_injective (a b : Z) :
  0 <= a ->
  0 <= b ->
  hex_value (encode_uint256 a) = a
  /\ (encode_uint256 a = encode_uint256 b -> a = b).
Proof.
  assert (Hrt : forall v, 0 <= v -> hex_value (encode_uint256 v) = v).
  { intros v Hv. rewrite (encode_uint256_nonneg v Hv), hex_value_zeros.
    now destruct (hex_digits_spec v Hv) as (_ & _ & H & _). }
  intros Ha Hb. split; [now apply Hrt|].
  intros E. rewrite <- (Hrt a Ha), <- (Hrt b Hb). now rewrite E.
Qed.

Lemma encode_uint256_injective_witness :
  hex_value (encode_uint256 (2 ^ 300)) = 2 ^ 300
  /\ (encode_uint256 (2 ^ 300) = encode_uint256 7 -> 2 ^ 300 = 7).
Proof. apply (encode_uint256_injective (2 ^ 300) 7); lia. Defined.

End EncoderMore.

(** ** More on the constructor arguments *)

(** A lookup that goes past the entries written so far. *)
Ltac lookup_other H :=
  cbn [contracts]; rewrite ?dict_get_set_other by discriminate; exact H.

Section ConstructorArgs.

Lemma dict_set_keys {V : Type} (d : list (string * V)) (k : string) (v w : V) :
  dict_get d k = Some w -> map fst (dict_set d k v) = map fst d.
Proof.
  induction d as [|[k0 x] r IH]; cbn [dict_get dict_set]; [discriminate|].
  destruct (String.eqb_spec k0 k) as [E|N]; intros H; cbn [map fst].
  - reflexivity.
  - now rewrite IH.
Qed.

Lemma dict_set_same_value {V : Type} (d : list (string * V)) (k : string) (v : V) :
  dict_get d k = Some v -> dict_set d k v = d.
Proof.
  induction d as [|[k0 x] r IH]; cbn [dict_get dict_set]; [discriminate|].
  destruct (String.eqb_spec k0 k) as [E|N]; intros H.
  - now injection H as ->.
  - now rewrite IH.
Qed.

Lemma set_args_found (key value : string) (info : contract_info) (st : state) :
  dict_get (contracts st) key = Some info ->
  set_args key value st
  = (Ret tt,
     {| contracts :=
          dict_set (contracts st) key
            {| address := address info; source := source info;
               args := Some value |};
        trace := trace st |}).
Proof.
  intros H. unfold set_args, lookup_contract, bind, get_contracts, put_contracts.
  now rewrite H.
Qed.

Lemma set_args_missing (key value : string) (st : state) :
  dict_get (contracts st) key = None ->
  set_args key value st = (Raise (KeyError key), st).
Proof.
  intros H. unfold set_args, lookup_contract, bind, get_contracts.
  now rewrite H.
Qed.

Lemma lookup_contract_inv (key : string) (st st' : state) (info : contract_info) :
  lookup_contract key st = (Ret info, st') ->
  dict_get (contracts st) key = Some info /\ st' = st.
Proof.
  unfold lookup_contract, bind, get_contracts.
  destruct (dict_get (contracts st) key) as [i|]; cbn; intros H.
  - injection H as -> ->. now split.
  - discriminate H.
Qed.

Lemma lookup_contract_found (key : string) (st : state) (info : contract_info) :
  dict_get (contracts st) key = Some info ->
  lookup_contract key st = (Ret info, st).
Proof.
  intros H. unfold lookup_contract, bind, get_contracts. now rewrite H.
Qed.

(** The registry after a run that finds its four keys. *)
Lemma compute_constructor_args_found (st : state)
    (renderer reg evo rep : contract_info) :
  dict_get (contracts st) "ClawRenderer" = Some renderer ->
  dict_get (contracts st) "ClawRegistry" = Some reg ->
  dict_get (contracts st) "ClawEvolution" = Some evo ->
  dict_get (contracts st) "ClawReputation" = Some rep ->
  compute_constructor_args st
  = (Ret tt,
     {| contracts :=
          dict_set
            (dict_set
               (dict_set (contracts st) "ClawRegistry"
                  (with_args reg (registry_args renderer)))
               "ClawEvolution" (with_args evo (dependent_args reg)))
            "ClawReputation" (with_args rep (dependent_args reg));
        trace := trace st |}).
Proof.
  intros Hr Hg He Hp. unfold compute_constructor_args.
  rewrite (bind_ret_eq _ _ _ _ _ (lookup_contract_found _ _ _ Hr)).
  rewrite (bind_ret_eq _ _ _ _ _ (lookup_contract_found _ _ _ Hg)).
  rewrite (bind_ret_eq _ _ _ _ _ (set_args_found "ClawRegistry" _ _ _ Hg)).
  erewrite bind_ret_eq by (apply set_args_found; lookup_other He).
  erewrite set_args_found by lookup_other Hp.
  reflexivity.
Qed.

Lemma compute_constructor_args_inv (st st1 : state) :
  compute_constructor_args st = (Ret tt, st1) ->
  exists renderer reg evo rep,
    dict_get (contracts st) "ClawRenderer" = Some renderer
    /\ dict_get (contracts st) "ClawRegistry" = Some reg
    /\ dict_get (contracts st) "ClawEvolution" = Some evo
    /\ dict_get (contracts st) "ClawReputation" = Some rep.
Proof.
  intros H. unfold compute_constructor_args in H.
  apply bind_ret_inv in H as (renderer & s1 & H1 & H).
  apply lookup_contract_inv in H1 as [Hr ->].
  apply bind_ret_inv in H as (reg & s2 & H2 & H).
  apply lookup_contract_inv in H2 as [Hg ->].
  rewrite (bind_ret_eq _ _ _ _ _ (set_args_found "ClawRegistry" _ _ _ Hg)) in H.
  destruct (dict_get (contracts st) "ClawEvolution") as [evo|] eqn:He.
  2:{ erewrite bind_raise_eq in H
        by (apply set_args_missing; lookup_other He).
      discriminate H. }
  erewrite bind_ret_eq in H by (apply set_args_found; lookup_other He).
  destruct (dict_get (contracts st) "ClawReputation") as [rep|] eqn:Hp.
  2:{ erewrite set_args_missing in H by lookup_other Hp. discriminate H. }
  now exists renderer, reg, evo, rep.
Qed.

Lemma dict_get_set_fields (d : registry) (k key : string)
    (info new : contract_info) :
  dict_get d k = Some info ->
  (forall old, dict_get d key = Some old ->
               address new = address old /\ source new = source old) ->
  exists info',
    dict_get (dict_set d key new) k = Some info'
    /\ address info' = address info /\ source info' = source info.
Proof.
  intros Hk Hnew. destruct (String.eqb_spec key k) as [E|N].
  - subst k. rewrite dict_get_set_same. exists new.
    destruct (Hnew info Hk) as [Ha Hs]. now split.
  - rewrite dict_get_set_other by exact N. now exists info.
Qed.

(** X5: on any registry that holds its four keys,
    [compute_constructor_args] succeeds, prints and calls nothing, keeps
    the keys and their order and every address and source path, and
    leaves the arguments of ClawEvolution and of ClawReputation equal to
    the blob computed from the address of the registry entry.  (What it
    does to the other entries is stated for the registry of the script
    only: it depends on the entries being separate dicts.) *)
Theorem compute_constructor_args_general (st : state)
    (renderer reg evo rep : contract_info) :
  dict_get (contracts st) "ClawRenderer" = Some renderer ->
  dict_get (contracts st) "ClawRegistry" = Some reg ->
  dict_get (contracts st) "ClawEvolution" = Some evo ->
  dict_get (contracts st) "ClawReputation" = Some rep ->
  exists st1,
    compute_constructor_args st = (Ret tt, st1)
    /\ trace st1 = trace st
    /\ map fst (contracts st1) = map fst (contracts st)
    /\ (forall k info,
          dict_get (contracts st) k = Some info ->
          exists info',
            dict_get (contracts st1) k = Some info'
            /\ address info' = address info /\ source info' = source info)
    /\ dict_get (contracts st1) "ClawEvolution"
       = Some (with_args evo (dependent_args reg))
    /\ dict_get (contracts st1) "ClawReputation"
       = Some (with_args rep (dependent_args reg)).
Proof.
  intros Hr Hg He Hp. eexists. split.
  { exact (compute_constructor_args_found st renderer reg evo rep Hr Hg He Hp). }
  cbn [trace contracts].
  assert (He1 : dict_get (dict_set (contracts st) "ClawRegistry"
                            (with_args reg (registry_args renderer)))
                  "ClawEvolution" = Some evo)
    by (rewrite dict_get_set_other by discriminate; exact He).
  assert (Hp2 : dict_get (dict_set (dict_set (contracts st) "ClawRegistry"
                                      (with_args reg (registry_args renderer)))
                            "ClawEvolution" (with_args evo (dependent_args reg)))
                  "ClawReputation" = Some rep)
    by (rewrite !dict_get_set_other by discriminate; exact Hp).
  split; [reflexivity|]. split; [|split; [|split]].
  - rewrite (dict_set_keys _ _ _ _ Hp2), (dict_set_keys _ _ _ _ He1).
    exact (dict_set_keys _ _ _ _ Hg).
  - intros k info Hk.
    destruct (dict_get_set_fields (contracts st) k "ClawRegistry" info
                (with_args reg (registry_args renderer)) Hk)
      as (i1 & H1 & Ha1 & Hs1).
    { intros old Ho. rewrite Hg in Ho. injection Ho as <-. now split. }
    destruct (dict_get_set_fields _ k "ClawEvolution" i1
                (with_args evo (dependent_args reg)) H1)
      as (i2 & H2 & Ha2 & Hs2).
    { intros old Ho. rewrite He1 in Ho. injection Ho as <-. now split. }
    destruct (dict_get_set_fields _ k "ClawReputation" i2
                (with_args rep (dependent_args reg)) H2)
      as (i3 & H3 & Ha3 & Hs3).
    { intros old Ho. rewrite Hp2 in Ho. injection Ho as <-. now split. }
    exists i3. split; [exact H3|]. split; congruence.
  - rewrite dict_get_set_other by discriminate. apply dict_get_set_same.
  - apply dict_get_set_same.
Qed.

Lemma compute_constructor_args_general_witness :
  exists st1,
    compute_constructor_args initial = (Ret tt, st1)
    /\ trace st1 = trace initial
    /\ map fst (contracts st1) = map fst (contracts initial).
Proof.
  edestruct (compute_constructor_args_general initial)
    as (st1 & H & Ht & Hk & _); try reflexivity.
  exists st1. repeat split; assumption.
Defined.

Lemma with_args_twice (info : contract_info) (a b : string) :
  with_args (with_args info a) b = with_args info b.
Proof. reflexivity. Qed.

(** X6: a second run of [compute_constructor_args] changes nothing, on
    any registry on which the first one succeeds. *)
Theorem compute_constructor_args_idempotent (st st1 : state) :
  compute_constructor_args st = (Ret tt, st1) ->
  compute_constructor_args st1 = (Ret tt, st1).
Proof.
  intros H.
  destruct (compute_constructor_args_inv st st1 H)
    as (renderer & reg & evo & rep & Hr & Hg & He & Hp).
  pose proof (compute_constructor_args_found st renderer reg evo rep Hr Hg He Hp) as E.
  rewrite H in E. injection E as ->.
  set (d1 := dict_set (contracts st) "ClawRegistry"
               (with_args reg (registry_args renderer))).
  set (d2 := dict_set d1 "ClawEvolution" (with_args evo (dependent_args reg))).
  set (d3 := dict_set d2 "ClawReputation" (with_args rep (dependent_args reg))).
  assert (Hr3 : dict_get d3 "ClawRenderer" = Some renderer).
  { subst d3 d2 d1. rewrite !dict_get_set_other by discriminate. exact Hr. }
  assert (Hg3 : dict_get d3 "ClawRegistry"
                = Some (with_args reg (registry_args renderer))).
  { subst d3 d2 d1. rewrite !dict_get_set_other by discriminate.
    apply dict_get_set_same. }
  assert (He3 : dict_get d3 "ClawEvolution"
                = Some (with_args evo (dependent_args reg))).
  { subst d3 d2. rewrite dict_get_set_other by discriminate.
    apply dict_get_set_same. }
  assert (Hp3 : dict_get d3 "ClawReputation"
                = Some (with_args rep (dependent_args reg))).
  { subst d3. apply dict_get_set_same. }
  rewrite (compute_constructor_args_found {| contracts := d3; trace := trace st |}
             _ _ _ _ Hr3 Hg3 He3 Hp3).
  cbn [contracts trace].
  change (dependent_args (with_args reg (registry_args renderer)))
    with (dependent_args reg).
  rewrite !with_args_twice.
  rewrite (dict_set_same_value d3 "ClawRegistry" _ Hg3).
  rewrite (dict_set_same_value d3 "ClawEvolution" _ He3).
  rewrite (dict_set_same_value d3 "ClawReputation" _ Hp3).
  reflexivity.
Qed.

Lemma compute_constructor_args_idempotent_witness :
  compute_constructor_args
    {| contracts := CONTRACTS_resolved; trace := [] |}
  = (Ret tt, {| contracts := CONTRACTS_resolved; trace := [] |}).
Proof.
  apply (compute_constructor_args_idempotent initial). reflexivity.
Defined.

(** X7: the update is not all-or-nothing.  When ["ClawEvolution"] is
    missing from a registry that holds the renderer and the registry
    entry, the call raises [KeyError] after it has already written the
    arguments of ClawRegistry. *)
Theorem compute_constructor_args_partial (st : state)
    (renderer reg : contract_info) :
  dict_get (contracts st) "ClawRenderer" = Some renderer ->
  dict_get (contracts st) "ClawRegistry" = Some reg ->
  dict_get (contracts st) "ClawEvolution" = None ->
  exists st1,
    compute_constructor_args st = (Raise (KeyError "ClawEvolution"), st1)
    /\ dict_get (contracts st1) "ClawRegistry"
       = Some (with_args reg (registry_args renderer))
    /\ trace st1 = trace st.
Proof.
  intros Hr Hg He. unfold compute_constructor_args.
  rewrite (bind_ret_eq _ _ _ _ _ (lookup_contract_found _ _ _ Hr)).
  rewrite (bind_ret_eq _ _ _ _ _ (lookup_contract_found _ _ _ Hg)).
  rewrite (bind_ret_eq _ _ _ _ _ (set_args_found "ClawRegistry" _ _ _ Hg)).
  erewrite bind_raise_eq by (apply set_args_missing; lookup_other He).
  eexists. split; [reflexivity|]. cbn [contracts trace].
  split; [apply dict_get_set_same | reflexivity].
Qed.

Lemma compute_constructor_args_partial_witness :
  exists st1,
    compute_constructor_args
      {| contracts := firstn 2 CONTRACTS; trace := [] |}
    = (Raise (KeyError "ClawEvolution"), st1)
    /\ option_map args (dict_get (contracts st1) "ClawRegistry")
       <> option_map args (dict_get (firstn 2 CONTRACTS) "ClawRegistry").
Proof.
  edestruct (compute_constructor_args_partial
               {| contracts := firstn 2 CONTRACTS; trace := [] |})
    as (st1 & H & Hg & _); try reflexivity.
  exists st1. split; [exact H|]. rewrite Hg. discriminate.
Defined.

End ConstructorArgs.

(** ** The artifact loader *)
Section Loader.
Local Open Scope list_scope.

Variable env : Env.

Lemma count_snoc_other (p : event -> bool) (t : list event) (e : event) :
  p e = false -> count p (t ++ [e]) = count p t.
Proof. intros H. rewrite count_app. unfold count at 2. cbn. rewrite H. cbn. lia. Qed.

Lemma count_snoc_same (p : event -> bool) (t : list event) (e : event) :
  p e = true -> count p (t ++ [e]) = S (count p t).
Proof. intros H. rewrite count_app. unfold count at 2. cbn. rewrite H. cbn. lia. Qed.

(** The shared first lines, when the listing has a [.json] name. *)
Lemma load_build_info_first (st : state) (names : list string)
    (first : string) (others : list string) :
  os_listdir env (count is_listdir (trace st)) build_dir = Ret names ->
  json_files names = first :: others ->
  load_build_info env st
  = (json_load env (count is_open (trace st)) (path_join build_dir first),
     {| contracts := contracts st;
        trace := trace st ++ [EvListdir build_dir;
                              EvOpen (path_join build_dir first)] |}).
Proof.
  intros Hls Hfiles. unfold load_build_info, bind, call.
  rewrite Hls, Hfiles. cbn [trace contracts].
  rewrite count_snoc_other by reflexivity.
  now rewrite <- List.app_assoc.
Qed.

(** X8: [load_source_code] opens exactly one file, the first name of the
    listing that ends in [.json], whatever other matches follow, and
    returns its ["input"] and ["solcVersion"] entries. *)
Theorem load_source_code_first_match (st : state) (names : list string)
    (first : string) (others : list string) (build_info input solc : json) :
  os_listdir env (count is_listdir (trace st)) build_dir = Ret names ->
  json_files names = first :: others ->
  json_load env (count is_open (trace st)) (path_join build_dir first)
  = Ret build_info ->
  json_getitem build_info "input" = Ret input ->
  json_getitem build_info "solcVersion" = Ret solc ->
  load_source_code env st
  = (Ret (input, solc),
     {| contracts := contracts st;
        trace := trace st ++ [EvListdir build_dir;
                              EvOpen (path_join build_dir first)] |}).
Proof.
  intros Hls Hfiles Hload Hin Hsolc. unfold load_source_code.
  rewrite (bind_ret_eq _ _ _ _ _
             (eq_trans (load_build_info_first st names first others Hls Hfiles)
                       (f_equal (fun o => (o, _)) Hload))).
  unfold bind, lift, ret. now rewrite Hin, Hsolc.
Qed.

(** X9: a build-info file that misses what [load_source_code] reads makes
    it raise after the file was opened: [TypeError] when the document is
    not a [dict], [KeyError "input"] when the input is missing (also when
    the version is missing too), [KeyError "solcVersion"] when only the
    version is missing. *)
Theorem load_source_code_bad_build_info (st st1 : state) (build_info : json) :
  load_build_info env st = (Ret build_info, st1) ->
  (forall shown, build_info = JOther shown ->
     load_source_code env st = (Raise TypeError, st1))
  /\ (forall text, build_info = JStr text ->
        load_source_code env st = (Raise TypeError, st1))
  /\ (forall shown items, build_info = JDict shown items ->
        dict_get items "input" = None ->
        load_source_code env st = (Raise (KeyError "input"), st1))
  /\ (forall shown items input, build_info = JDict shown items ->
        dict_get items "input" = Some input ->
        dict_get items "solcVersion" = None ->
        load_source_code env st = (Raise (KeyError "solcVersion"), st1)).
Proof.
  intros H. unfold load_source_code. rewrite (bind_ret_eq _ _ _ _ _ H).
  repeat split.
  - now intros shown ->.
  - now intros text ->.
  - intros shown items -> Hi. unfold bind, lift. cbn [json_getitem]. now rewrite Hi.
  - intros shown items input -> Hi Hs. unfold bind, lift. cbn [json_getitem].
    now rewrite Hi, Hs.
Qed.

(** An exception of [os.listdir] leaves [load_source_code] at once: no
    file is opened. *)
Lemma load_source_code_listdir_error (st : state) (e : exn) :
  os_listdir env (count is_listdir (trace st)) build_dir = Raise e ->
  load_source_code env st
  = (Raise e,
     {| contracts := contracts st; trace := trace st ++ [EvListdir build_dir] |}).
Proof.
  intros H. unfold load_source_code, load_build_info, bind, call. now rewrite H.
Qed.

End Loader.

Lemma load_source_code_first_match_witness :
  load_source_code MoreSamples.two_build_infos initial
  = (Ret (JDict "{...}" [("language", JStr "Solidity")], JStr "0.8.24"),
     {| contracts := CONTRACTS;
        trace := [EvListdir build_dir;
                  EvOpen "artifacts-zk/build-info/b.json"] |}).
Proof.
  apply (load_source_code_first_match MoreSamples.two_build_infos initial
           ["notes.txt"; "b.json"; "a.json"]%string "b.json" ["a.json"]%string
           MoreSamples.build_info_no_output);
    reflexivity.
Defined.

Lemma load_source_code_bad_build_info_witness :
  exists st1,
    load_source_code MoreSamples.no_input initial
    = (Raise (KeyError "input"), st1).
Proof.
  eassert (H : load_build_info MoreSamples.no_input initial = (Ret _, _))
    by (vm_compute; reflexivity).
  eexists.
  exact (proj1 (proj2 (proj2
           (load_source_code_bad_build_info MoreSamples.no_input initial _ _ H)))
           _ _ eq_refl eq_refl).
Defined.

(** *** The zksolc version *)
Section ZksolcVersion.
Local Open Scope list_scope.

Lemma scan_contracts_skip (n : string) (data : json) (rest : list (string * json)) :
  no_zk_version data ->
  scan_contracts ((n, data) :: rest) = scan_contracts rest.
Proof.
  intros (shown & items & -> & H). cbn [scan_contracts json_get].
  destruct (dict_get items "metadata") as [[s|s m|s]|]; try reflexivity.
  now rewrite H.
Qed.

Lemma scan_contracts_none (contracts : list (string * json)) :
  Forall (fun entry => no_zk_version (snd entry)) contracts ->
  scan_contracts contracts = Ret None.
Proof.
  induction 1 as [|[n data] rest Hd _ IH]; [reflexivity|].
  now rewrite scan_contracts_skip.
Qed.

Lemma scan_contracts_first (pre rest : list (string * json)) (n shown : string)
    (items : list (string * json)) (shown' : string)
    (metadata : list (string * json)) (v : json) :
  Forall (fun entry => no_zk_version (snd entry)) pre ->
  dict_get items "metadata" = Some (JDict shown' metadata) ->
  dict_get metadata "zk_version" = Some v ->
  scan_contracts (pre ++ (n, JDict shown items) :: rest)
  = Ret (Some ("v" ++ py_str v)%string).
Proof.
  intros Hpre Hm Hv. induction Hpre as [|[k data] pre Hd _ IH]; cbn [app].
  - cbn [scan_contracts json_get]. now rewrite Hm, Hv.
  - now rewrite scan_contracts_skip.
Qed.

Lemma scan_contracts_not_dict (pre rest : list (string * json)) (n : string)
    (data : json) :
  Forall (fun entry => no_zk_version (snd entry)) pre ->
  (forall shown items, data <> JDict shown items) ->
  scan_contracts (pre ++ (n, data) :: rest) = Raise AttributeError.
Proof.
  intros Hpre Hd. induction Hpre as [|[k d] pre Hk _ IH]; cbn [app].
  - cbn [scan_contracts]. destruct data as [s|s items|s]; try reflexivity.
    now contradiction (Hd s items).
  - now rewrite scan_contracts_skip.
Qed.

Lemma scan_sources_skip (n : string) (contracts : json)
    (rest : list (string * json)) :
  no_zk_version_source contracts ->
  scan_sources ((n, contracts) :: rest) = scan_sources rest.
Proof.
  intros (shown & items & -> & H). cbn [scan_sources json_items].
  now rewrite (scan_contracts_none items H).
Qed.

Lemma scan_sources_none (sources : list (string * json)) :
  Forall (fun entry => no_zk_version_source (snd entry)) sources ->
  scan_sources sources = Ret None.
Proof.
  induction 1 as [|[n c] rest Hc _ IH]; [reflexivity|].
  now rewrite scan_sources_skip.
Qed.

Lemma scan_sources_at (pre rest : list (string * json)) (n shown : string)
    (contracts : list (string * json)) :
  Forall (fun entry => no_zk_version_source (snd entry)) pre ->
  scan_contracts contracts <> Ret None ->
  scan_sources (pre ++ (n, JDict shown contracts) :: rest)
  = scan_contracts contracts.
Proof.
  intros Hpre Hc. induction Hpre as [|[k c] pre Hk _ IH]; cbn [app].
  - cbn [scan_sources json_items].
    destruct (scan_contracts contracts) as [[v|]|e]; try reflexivity.
    now contradiction Hc.
  - now rewrite scan_sources_skip.
Qed.

Lemma scan_contracts_v (contracts : list (string * json)) (version : string) :
  scan_contracts contracts = Ret (Some version) ->
  PyStr.startswith version "v" = true.
Proof.
  induction contracts as [|[n data] rest IH]; cbn [scan_contracts]; [discriminate|].
  destruct (json_get data "metadata" (JDict "{}" [])) as [[s|s m|s]|e];
    try exact IH; try discriminate.
  destruct (dict_get m "zk_version") as [v|]; [|exact IH].
  intros H. injection H as <-. cbn [String.append PyStr.startswith].
  now destruct (py_str v).
Qed.

Lemma scan_sources_v (sources : list (string * json)) (version : string) :
  scan_sources sources = Ret (Some version) ->
  PyStr.startswith version "v" = true.
Proof.
  induction sources as [|[n c] rest IH]; cbn [scan_sources]; [discriminate|].
  destruct (json_items c) as [items|e]; [|discriminate].
  destruct (scan_contracts items) as [[v|]|e] eqn:E; try discriminate.
  - intros H. injection H as <-. exact (scan_contracts_v items v E).
  - exact IH.
Qed.

Variable env : Env.

(** What [get_zksolc_version] makes of a loaded build-info document. *)
Lemma get_zksolc_version_scan (st st1 : state)
    (build_info output by_source : json) (sources : list (string * json)) :
  load_build_info env st = (Ret build_info, st1) ->
  json_get build_info "output" (JDict "{}" []) = Ret output ->
  json_get output "contracts" (JDict "{}" []) = Ret by_source ->
  json_items by_source = Ret sources ->
  get_zksolc_version env st
  = (match scan_sources sources with
     | Ret (Some version) => Ret version
     | Ret None => Ret "v1.5.10"%string
     | Raise e => Raise e
     end, st1).
Proof.
  intros H Ho Hc Hi. unfold get_zksolc_version.
  rewrite (bind_ret_eq _ _ _ _ _ H). unfold bind, lift. rewrite Ho, Hc, Hi.
  now destruct (scan_sources sources) as [[v|]|e].
Qed.

(** X10: [get_zksolc_version] falls back to ["v1.5.10"] when no contract
    of the build-info output carries a version: the output or its
    contracts are absent, or every contract entry is a [dict] whose
    metadata is absent, is not a [dict] (a JSON text, say) or has no
    ["zk_version"]. *)
Theorem get_zksolc_version_fallback (st st1 : state)
    (build_info output by_source : json) (sources : list (string * json)) :
  load_build_info env st = (Ret build_info, st1) ->
  json_get build_info "output" (JDict "{}" []) = Ret output ->
  json_get output "contracts" (JDict "{}" []) = Ret by_source ->
  json_items by_source = Ret sources ->
  Forall (fun entry => no_zk_version_source (snd entry)) sources ->
  get_zksolc_version env st = (Ret "v1.5.10"%string, st1).
Proof.
  intros H Ho Hc Hi Hall.
  rewrite (get_zksolc_version_scan st st1 _ _ _ _ H Ho Hc Hi).
  now rewrite (scan_sources_none sources Hall).
Qed.

(** X11: the first version found wins.  When the sources before one
    source, and the contracts before one contract of it, carry no version
    and that contract's metadata is a [dict] with a ["zk_version"], the
    result is ["v"] followed by that version, whatever comes after it,
    malformed entries included. *)
Theorem get_zksolc_version_first_found (st st1 : state)
    (build_info output by_source : json)
    (spre srest cpre crest : list (string * json))
    (sname sshown cname cshown mshown : string)
    (items metadata : list (string * json)) (v : json) :
  load_build_info env st = (Ret build_info, st1) ->
  json_get build_info "output" (JDict "{}" []) = Ret output ->
  json_get output "contracts" (JDict "{}" []) = Ret by_source ->
  json_items by_source
  = Ret (spre
         ++ (sname, JDict sshown (cpre ++ (cname, JDict cshown items) :: crest))
         :: srest) ->
  Forall (fun entry => no_zk_version_source (snd entry)) spre ->
  Forall (fun entry => no_zk_version (snd entry)) cpre ->
  dict_get items "metadata" = Some (JDict mshown metadata) ->
  dict_get metadata "zk_version" = Some v ->
  get_zksolc_version env st = (Ret ("v" ++ py_str v)%string, st1).
Proof.
  intros H Ho Hc Hi Hs Hcp Hm Hv.
  rewrite (get_zksolc_version_scan st st1 _ _ _ _ H Ho Hc Hi).
  pose proof (scan_contracts_first cpre crest cname cshown items mshown
                metadata v Hcp Hm Hv) as E.
  rewrite scan_sources_at by (try exact Hs; rewrite E; discriminate).
  now rewrite E.
Qed.

(** X12: a contract entry that is not a [dict], met before any version
    was found, makes [get_zksolc_version] raise [AttributeError] instead of
    falling back, even when a later entry carries a version. *)
Theorem get_zksolc_version_malformed_entry (st st1 : state)
    (build_info output by_source : json)
    (spre srest cpre crest : list (string * json))
    (sname sshown cname : string) (data : json) :
  load_build_info env st = (Ret build_info, st1) ->
  json_get build_info "output" (JDict "{}" []) = Ret output ->
  json_get output "contracts" (JDict "{}" []) = Ret by_source ->
  json_items by_source
  = Ret (spre ++ (sname, JDict sshown (cpre ++ (cname, data) :: crest))
         :: srest) ->
  Forall (fun entry => no_zk_version_source (snd entry)) spre ->
  Forall (fun entry => no_zk_version (snd entry)) cpre ->
  (forall shown items, data <> JDict shown items) ->
  get_zksolc_version env st = (Raise AttributeError, st1).
Proof.
  intros H Ho Hc Hi Hs Hcp Hd.
  rewrite (get_zksolc_version_scan st st1 _ _ _ _ H Ho Hc Hi).
  pose proof (scan_contracts_not_dict cpre crest cname data Hcp Hd) as E.
  rewrite scan_sources_at by (try exact Hs; rewrite E; discriminate).
  now rewrite E.
Qed.

(** X13: whatever the build-info file holds, a version that
    [get_zksolc_version] returns starts with the letter [v]. *)
Theorem get_zksolc_version_starts_with_v (st st' : state) (version : string) :
  get_zksolc_version env st = (Ret version, st') ->
  PyStr.startswith version "v" = true.
Proof.
  unfold get_zksolc_version. intros H.
  apply bind_ret_inv in H as (bi & s1 & _ & H).
  apply bind_ret_inv in H as (output & s2 & _ & H).
  apply bind_ret_inv in H as (by_source & s3 & _ & H).
  apply bind_ret_inv in H as (sources & s4 & _ & H).
  apply bind_ret_inv in H as (found & s5 & Hf & H).
  unfold lift in Hf. injection Hf as Hf _.
  destruct found as [v|]; injection H as <- _.
  - exact (scan_sources_v sources v Hf).
  - reflexivity.
Qed.

End ZksolcVersion.

Ltac no_version :=
  repeat first
    [ apply Forall_nil
    | apply Forall_cons
    | eexists; eexists; split; [reflexivity|]; cbn
    | exact I
    | reflexivity ].

Lemma get_zksolc_version_fallback_witness :
  exists st1,
    get_zksolc_version
      (VersionSamples.env_of
         (VersionSamples.build_info_of
            [("A", MoreSamples.text_metadata); ("B", MoreSamples.no_metadata)]%string))
      initial
    = (Ret "v1.5.10"%string, st1).
Proof.
  eassert (H : load_build_info (VersionSamples.env_of _) initial = (Ret _, _))
    by (vm_compute; reflexivity).
  eexists.
  eapply (get_zksolc_version_fallback _ _ _ _ _ _ _ H);
    [reflexivity | reflexivity | reflexivity | no_version].
Defined.

Lemma get_zksolc_version_first_found_witness :
  exists st1,
    get_zksolc_version
      (VersionSamples.env_of
         (VersionSamples.build_info_of VersionSamples.contracts_with_version))
      initial
    = (Ret "v1.5.7"%string, st1).
Proof.
  eassert (H : load_build_info (VersionSamples.env_of _) initial = (Ret _, _))
    by (vm_compute; reflexivity).
  eexists.
  eapply (get_zksolc_version_first_found _ _ _ _ _ _
            [("contracts/Empty.sol", JDict "{}" [])]%string []
            [("A", MoreSamples.text_metadata); ("B", MoreSamples.no_metadata)]%string
            [("D", MoreSamples.versioned "1.4.0"); ("E", MoreSamples.malformed)]%string
            "contracts/Claw.sol" "{...}" "C" "{...}" "{...}" _ _ (JStr "1.5.7") H);
    [reflexivity | reflexivity | reflexivity | no_version | no_version
     | reflexivity | reflexivity].
Defined.

Lemma get_zksolc_version_malformed_entry_witness :
  exists st1,
    get_zksolc_version
      (VersionSamples.env_of
         (VersionSamples.build_info_of VersionSamples.contracts_malformed))
      initial
    = (Raise AttributeError, st1).
Proof.
  eassert (H : load_build_info (VersionSamples.env_of _) initial = (Ret _, _))
    by (vm_compute; reflexivity).
  eexists.
  eapply (get_zksolc_version_malformed_entry _ _ _ _ _ _
            [("contracts/Empty.sol", JDict "{}" [])]%string []
            [("A", MoreSamples.text_metadata); ("B", MoreSamples.no_metadata)]%string
            [("C", MoreSamples.versioned "1.5.7")]%string
            "contracts/Claw.sol" "{...}" "E" MoreSamples.malformed H);
    [reflexivity | reflexivity | reflexivity | no_version | no_version
     | discriminate].
Defined.

Lemma get_zksolc_version_starts_with_v_witness :
  PyStr.startswith "v1.5.7" "v" = true.
Proof.
  eapply (get_zksolc_version_starts_with_v Samples.all_successful initial).
  vm_compute. reflexivity.
Defined.

(** ** The verification client *)

(** Counting the events of explicit traces. *)
Ltac counts :=
  unfold count; rewrite ?filter_app, ?List.length_app;
  cbn [filter is_get is_sleep is_post is_listdir is_open List.length];
  repeat split; try lia; try reflexivity.

Section Client.
Local Open Scope list_scope.

Variable env : Env.

(** One iteration of the polling loop, by the answer of the poll. *)
Lemma wait_loop_step (vid : Z) (max_retries r i : nat) (st : state) :
  wait_loop env vid max_retries (S r) i st
  = match urlopen_get env (count is_get (trace st)) (status_url vid) with
    | Raise e => (Raise e, polled vid st)
    | Ret reply =>
        match json_get reply "status" (JStr "unknown") with
        | Raise e => (Raise e, polled vid st)
        | Ret state =>
            if eq_str state "successful" then (Ret (true, None), polled vid st)
            else if eq_str state "failed" then
              (match json_get reply "error" (JStr "Unknown error") with
               | Ret error => Ret (false, Some error)
               | Raise e => Raise e
               end, polled vid st)
            else
              bind (print_with [py_str state] (poll_line state i max_retries))
                   (fun _ => wait_loop env vid max_retries r (S i))
                   (polled vid st)
        end
    end.
Proof.
  cbn [wait_loop]. unfold bind at 1. cbn [emit].
  unfold bind at 1. unfold check_status, call. cbn [trace contracts].
  rewrite count_snoc_other by reflexivity.
  fold (status_url vid). unfold polled. rewrite <- List.app_assoc. cbn [app].
  destruct (urlopen_get env _ _) as [reply|e]; [|reflexivity].
  unfold bind at 1. unfold lift.
  destruct (json_get reply "status" (JStr "unknown")) as [state|e]; [|reflexivity].
  destruct (eq_str state "successful"); [reflexivity|].
  destruct (eq_str state "failed").
  - unfold bind. now destruct (json_get reply "error" _).
  - unfold poll_line.
    now destruct (eq_str state "in_progress" || eq_str state "queued").
Qed.

Lemma polled_counts (vid : Z) (st : state) :
  count is_get (trace (polled vid st)) = S (count is_get (trace st))
  /\ count is_sleep (trace (polled vid st)) = S (count is_sleep (trace st))
  /\ count is_post (trace (polled vid st)) = count is_post (trace st)
  /\ contracts (polled vid st) = contracts st.
Proof.
  unfold polled, count. cbn [trace contracts].
  rewrite !filter_app, !List.length_app.
  cbn [filter is_get is_sleep is_post List.length].
  repeat split; lia.
Qed.

(** The loop steps over [k] polls whose status is not final. *)
Lemma wait_loop_skip (vid : Z) (max_retries : nat) :
  forall (k r i : nat) (st : state),
    (forall j, (j < k)%nat ->
       pending_at env (count is_get (trace st) + j) (status_url vid)) ->
    exists st_k,
      wait_loop env vid max_retries (k + r) i st
      = wait_loop env vid max_retries r (k + i) st_k
      /\ count is_get (trace st_k) = (count is_get (trace st) + k)%nat
      /\ count is_sleep (trace st_k) = (count is_sleep (trace st) + k)%nat
      /\ count is_post (trace st_k) = count is_post (trace st)
      /\ contracts st_k = contracts st.
Proof.
  induction k as [|k IH]; intros r i st Hp.
  - exists st. cbn. repeat split; lia.
  - destruct (Hp 0%nat ltac:(lia)) as (reply & state & Hget & Hst & Hs & Hf & Hpr).
    rewrite Nat.add_0_r in Hget.
    cbn [Nat.add]. rewrite wait_loop_step, Hget, Hst, Hs, Hf.
    rewrite print_with_printable by (cbn [forallb]; now rewrite Hpr).
    rewrite bind_print.
    destruct (polled_counts vid st) as (Hg & Hsl & Hpo & Hc).
    match goal with
    | |- context [wait_loop _ _ _ (k + r) (S i) ?s] =>
        destruct (IH r (S i) s) as (st_k & Hrun & Hg' & Hsl' & Hpo' & Hc')
    end.
    + intros j Hj. cbn [trace]. rewrite count_snoc_other by reflexivity.
      rewrite Hg. replace (S (count is_get (trace st)) + j)%nat
        with (count is_get (trace st) + S j)%nat by lia.
      apply Hp. lia.
    + cbn [trace contracts] in *.
      rewrite count_snoc_other in Hg', Hsl', Hpo' by reflexivity.
      exists st_k. rewrite Hrun. replace (k + S i)%nat with (S (k + i))%nat by lia.
      repeat split; try lia. congruence.
Qed.

Lemma wait_success_after (vid : Z) (name : string)
    (max_retries k : nat) (st : state) :
  (k < max_retries)%nat ->
  (forall j, (j < k)%nat ->
     pending_at env (count is_get (trace st) + j) (status_url vid)) ->
  successful_at env (count is_get (trace st) + k) (status_url vid) ->
  exists st',
    wait_for_verification env vid name max_retries st = (Ret (true, None), st')
    /\ count is_get (trace st') = (count is_get (trace st) + k + 1)%nat
    /\ count is_sleep (trace st') = (count is_sleep (trace st) + k + 1)%nat
    /\ count is_post (trace st') = count is_post (trace st).
Proof.
  intros Hk Hp (reply & state & Hget & Hst & Hs).
  unfold wait_for_verification.
  replace (wait_loop env vid max_retries max_retries 0 st)
    with (wait_loop env vid max_retries (k + S (max_retries - S k)) 0 st)
    by (f_equal; lia).
  destruct (wait_loop_skip vid max_retries k (S (max_retries - S k)) 0 st Hp)
    as (st_k & -> & Hg & Hsl & Hpo & Hc).
  rewrite wait_loop_step, Hg, Hget, Hst, Hs.
  destruct (polled_counts vid st_k) as (Hg' & Hsl' & Hpo' & _).
  eexists. split; [reflexivity|]. repeat split; lia.
Qed.

Lemma wait_failed_after (vid : Z) (name : string)
    (max_retries k : nat) (st : state) (error : json) :
  (k < max_retries)%nat ->
  (forall j, (j < k)%nat ->
     pending_at env (count is_get (trace st) + j) (status_url vid)) ->
  failed_at env (count is_get (trace st) + k) (status_url vid) error ->
  exists st',
    wait_for_verification env vid name max_retries st
    = (Ret (false, Some error), st')
    /\ count is_get (trace st') = (count is_get (trace st) + k + 1)%nat
    /\ count is_post (trace st') = count is_post (trace st).
Proof.
  intros Hk Hp (reply & state & Hget & Hst & Hs & Hf & He).
  unfold wait_for_verification.
  replace (wait_loop env vid max_retries max_retries 0 st)
    with (wait_loop env vid max_retries (k + S (max_retries - S k)) 0 st)
    by (f_equal; lia).
  destruct (wait_loop_skip vid max_retries k (S (max_retries - S k)) 0 st Hp)
    as (st_k & -> & Hg & Hsl & Hpo & Hc).
  rewrite wait_loop_step, Hg, Hget, Hst, Hs, Hf, He.
  destruct (polled_counts vid st_k) as (Hg' & Hsl' & Hpo' & _).
  eexists. split; [reflexivity|]. split; lia.
Qed.

Lemma wait_poll_error_after (vid : Z) (name : string)
    (max_retries k : nat) (st : state) (e : exn) :
  (k < max_retries)%nat ->
  (forall j, (j < k)%nat ->
     pending_at env (count is_get (trace st) + j) (status_url vid)) ->
  poll_raises_at env (count is_get (trace st) + k) (status_url vid) e ->
  exists st',
    wait_for_verification env vid name max_retries st = (Raise e, st')
    /\ count is_get (trace st') = (count is_get (trace st) + k + 1)%nat
    /\ count is_post (trace st') = count is_post (trace st).
Proof.
  intros Hk Hp He. unfold poll_raises_at in He.
  unfold wait_for_verification.
  replace (wait_loop env vid max_retries max_retries 0 st)
    with (wait_loop env vid max_retries (k + S (max_retries - S k)) 0 st)
    by (f_equal; lia).
  destruct (wait_loop_skip vid max_retries k (S (max_retries - S k)) 0 st Hp)
    as (st_k & -> & Hg & Hsl & Hpo & Hc).
  rewrite wait_loop_step, Hg.
  destruct (polled_counts vid st_k) as (Hg' & Hsl' & Hpo' & _).
  destruct (urlopen_get env _ _) as [reply|e'].
  - rewrite He. eexists. split; [reflexivity|]. split; lia.
  - subst e'. eexists. split; [reflexivity|]. split; lia.
Qed.

Lemma wait_loop_bounds (vid : Z) (max_retries : nat) :
  forall (r i : nat) (st : state),
    exists k,
      (k <= r)%nat
      /\ count is_get (trace (snd (wait_loop env vid max_retries r i st)))
         = (count is_get (trace st) + k)%nat
      /\ count is_sleep (trace (snd (wait_loop env vid max_retries r i st)))
         = (count is_sleep (trace st) + k)%nat
      /\ count is_post (trace (snd (wait_loop env vid max_retries r i st)))
         = count is_post (trace st)
      /\ contracts (snd (wait_loop env vid max_retries r i st)) = contracts st.
Proof.
  induction r as [|r IH]; intros i st.
  - exists 0%nat. cbn. repeat split; lia.
  - rewrite wait_loop_step.
    destruct (polled_counts vid st) as (Hg & Hsl & Hpo & Hc).
    assert (Hone : exists k,
               (k <= S r)%nat
               /\ count is_get (trace (polled vid st)) = (count is_get (trace st) + k)%nat
               /\ count is_sleep (trace (polled vid st))
                  = (count is_sleep (trace st) + k)%nat
               /\ count is_post (trace (polled vid st)) = count is_post (trace st)
               /\ contracts (polled vid st) = contracts st).
    { exists 1%nat. repeat split; try lia; exact Hc. }
    destruct (urlopen_get env _ _) as [reply|e]; [|exact Hone].
    destruct (json_get reply "status" (JStr "unknown")) as [state|e]; [|exact Hone].
    destruct (eq_str state "successful"); [exact Hone|].
    destruct (eq_str state "failed"); [exact Hone|].
    unfold print_with. destruct (forallb PyStr.printable [py_str state]);
      [rewrite bind_print | exact Hone].
    match goal with
    | |- context [wait_loop _ _ _ r (S i) ?s] =>
        destruct (IH (S i) s) as (k & Hk & Hg' & Hsl' & Hpo' & Hc')
    end.
    cbn [trace contracts] in Hg', Hsl', Hpo', Hc'.
    rewrite count_snoc_other in Hg', Hsl', Hpo' by reflexivity.
    exists (S k). repeat split; try lia. congruence.
Qed.

(** X17: whatever the service answers, [wait_for_verification] makes at
    most [max_retries] polls, sleeps exactly once before each of them,
    sends no POST and leaves the registry alone. *)
Theorem wait_for_verification_bounds (vid : Z) (name : string)
    (max_retries : nat) (st : state) :
  exists k,
    (k <= max_retries)%nat
    /\ count is_get (trace (snd (wait_for_verification env vid name max_retries st)))
       = (count is_get (trace st) + k)%nat
    /\ count is_sleep (trace (snd (wait_for_verification env vid name max_retries st)))
       = (count is_sleep (trace st) + k)%nat
    /\ count is_post (trace (snd (wait_for_verification env vid name max_retries st)))
       = count is_post (trace st)
    /\ contracts (snd (wait_for_verification env vid name max_retries st))
       = contracts st.
Proof. apply wait_loop_bounds. Qed.

(** X14: [wait_for_verification] returns [(True, None)] at the first poll
    that answers [successful]: after [k] polls whose status was not final
    and could be printed, it has made exactly [k + 1] polls, each after one
    sleep, and no POST. *)
Theorem wait_for_verification_success (vid : Z) (name : string)
    (max_retries k : nat) (st : state) :
  (k < max_retries)%nat ->
  (forall j, (j < k)%nat ->
     pending_at env (count is_get (trace st) + j) (status_url vid)) ->
  successful_at env (count is_get (trace st) + k) (status_url vid) ->
  exists st',
    wait_for_verification env vid name max_retries st = (Ret (true, None), st')
    /\ count is_get (trace st') = (count is_get (trace st) + k + 1)%nat
    /\ count is_sleep (trace st') = (count is_sleep (trace st) + k + 1)%nat
    /\ count is_post (trace st') = count is_post (trace st).
Proof.
  intros Hk Hp (reply & state & Hget & Hst & Hs).
  unfold wait_for_verification.
  replace (wait_loop env vid max_retries max_retries 0 st)
    with (wait_loop env vid max_retries (k + S (max_retries - S k)) 0 st)
    by (f_equal; lia).
  destruct (wait_loop_skip vid max_retries k (S (max_retries - S k)) 0 st Hp)
    as (st_k & -> & Hg & Hsl & Hpo & Hc).
  rewrite wait_loop_step, Hg, Hget, Hst, Hs.
  destruct (polled_counts vid st_k) as (Hg' & Hsl' & Hpo' & _).
  eexists. split; [reflexivity|]. repeat split; lia.
Qed.

(** X15: a poll that answers [failed], after [k] polls whose status was
    not final and could be printed, ends the wait with [(False, error)],
    where [error] is the ["error"] entry of the answer or ["Unknown error"]
    when there is none; later polls are not made. *)
Theorem wait_for_verification_failed (vid : Z) (name : string)
    (max_retries k : nat) (st : state) (error : json) :
  (k < max_retries)%nat ->
  (forall j, (j < k)%nat ->
     pending_at env (count is_get (trace st) + j) (status_url vid)) ->
  failed_at env (count is_get (trace st) + k) (status_url vid) error ->
  exists st',
    wait_for_verification env vid name max_retries st
    = (Ret (false, Some error), st')
    /\ count is_get (trace st') = (count is_get (trace st) + k + 1)%nat
    /\ count is_post (trace st') = count is_post (trace st).
Proof.
  intros Hk Hp (reply & state & Hget & Hst & Hs & Hf & He).
  unfold wait_for_verification.
  replace (wait_loop env vid max_retries max_retries 0 st)
    with (wait_loop env vid max_retries (k + S (max_retries - S k)) 0 st)
    by (f_equal; lia).
  destruct (wait_loop_skip vid max_retries k (S (max_retries - S k)) 0 st Hp)
    as (st_k & -> & Hg & Hsl & Hpo & Hc).
  rewrite wait_loop_step, Hg, Hget, Hst, Hs, Hf, He.
  destruct (polled_counts vid st_k) as (Hg' & Hsl' & Hpo' & _).
  eexists. split; [reflexivity|]. split; lia.
Qed.

(** X16: a poll that raises, after [k] polls whose status was not final
    and could be printed, is not retried: the exception of [urlopen], of
    the decoding, or the [AttributeError] of an answer that is not a
    [dict], leaves [wait_for_verification] at that poll. *)
Theorem wait_for_verification_poll_error (vid : Z) (name : string)
    (max_retries k : nat) (st : state) (e : exn) :
  (k < max_retries)%nat ->
  (forall j, (j < k)%nat ->
     pending_at env (count is_get (trace st) + j) (status_url vid)) ->
  poll_raises_at env (count is_get (trace st) + k) (status_url vid) e ->
  exists st',
    wait_for_verification env vid name max_retries st = (Raise e, st')
    /\ count is_get (trace st') = (count is_get (trace st) + k + 1)%nat
    /\ count is_post (trace st') = count is_post (trace st).
Proof.
  intros Hk Hp He. unfold poll_raises_at in He.
  unfold wait_for_verification.
  replace (wait_loop env vid max_retries max_retries 0 st)
    with (wait_loop env vid max_retries (k + S (max_retries - S k)) 0 st)
    by (f_equal; lia).
  destruct (wait_loop_skip vid max_retries k (S (max_retries - S k)) 0 st Hp)
    as (st_k & -> & Hg & Hsl & Hpo & Hc).
  rewrite wait_loop_step, Hg.
  destruct (polled_counts vid st_k) as (Hg' & Hsl' & Hpo' & _).
  destruct (urlopen_get env _ _) as [reply|e'].
  - rewrite He. eexists. split; [reflexivity|]. split; lia.
  - subst e'. eexists. split; [reflexivity|]. split; lia.
Qed.

(** X18: [submit_verification] sends exactly one POST whatever the
    answer: it never retries, polls or sleeps, and leaves the registry
    alone. *)
Theorem submit_verification_one_post (name : string) (info : contract_info)
    (sc sv : json) (zv : string) (st : state) :
  count is_post (trace (snd (submit_verification env name info sc sv zv st)))
  = S (count is_post (trace st))
  /\ count is_get (trace (snd (submit_verification env name info sc sv zv st)))
     = count is_get (trace st)
  /\ count is_sleep (trace (snd (submit_verification env name info sc sv zv st)))
     = count is_sleep (trace st)
  /\ contracts (snd (submit_verification env name info sc sv zv st))
     = contracts st.
Proof.
  unfold submit_verification, try_except, bind, call, ret, lift, print, emit.
  cbn [trace contracts].
  destruct (urlopen_post env _ VERIFY_URL _) as [vid|e]; cbn [snd trace contracts].
  - counts.
  - destruct e; cbn [snd trace contracts]; try solve [counts].
    destruct body as [text|]; cbn [snd trace contracts]; counts.
Qed.

End Client.

Lemma wait_for_verification_success_witness :
  exists st',
    wait_for_verification PollSamples.third_poll_successful 7 "ClawRegistry"
      default_max_retries initial
    = (Ret (true, None), st')
    /\ count is_get (trace st') = 3%nat.
Proof.
  destruct (wait_for_verification_success PollSamples.third_poll_successful 7
              "ClawRegistry" default_max_retries 2 initial)
    as (st' & H & Hg & _).
  - unfold default_max_retries. lia.
  - intros j Hj. destruct j as [|[|j]]; [| |lia];
      (eexists; eexists; repeat split; reflexivity).
  - eexists; eexists; repeat split; reflexivity.
  - exists st'. split; [exact H | exact Hg].
Defined.

Lemma wait_for_verification_failed_witness :
  exists st',
    wait_for_verification PollSamples.second_poll_failed 7 "ClawRegistry"
      default_max_retries initial
    = (Ret (false, Some (JStr "Unknown error")), st')
    /\ count is_get (trace st') = 2%nat.
Proof.
  destruct (wait_for_verification_failed PollSamples.second_poll_failed 7
              "ClawRegistry" default_max_retries 1 initial (JStr "Unknown error"))
    as (st' & H & Hg & _).
  - unfold default_max_retries. lia.
  - intros j Hj. destruct j as [|j]; [|lia].
    eexists; eexists; repeat split; reflexivity.
  - eexists; eexists; repeat split; reflexivity.
  - exists st'. split; [exact H | exact Hg].
Defined.

Lemma wait_for_verification_poll_error_witness :
  exists st',
    wait_for_verification PollSamples.second_poll_not_a_dict 7 "ClawRegistry"
      default_max_retries initial
    = (Raise AttributeError, st')
    /\ count is_get (trace st') = 2%nat.
Proof.
  destruct (wait_for_verification_poll_error PollSamples.second_poll_not_a_dict 7
              "ClawRegistry" default_max_retries 1 initial AttributeError)
    as (st' & H & Hg & _).
  - unfold default_max_retries. lia.
  - intros j Hj. destruct j as [|j]; [|lia].
    eexists; eexists; repeat split; reflexivity.
  - reflexivity.
  - exists st'. split; [exact H | exact Hg].
Defined.

(** C3 (as stated) fails on a status that cannot be printed.  A reply
    whose status is the JSON string ["\ud83d"] is neither [successful] nor
    [failed], yet the line that reports the unknown status raises
    [UnicodeEncodeError] at the first poll: no timeout result is returned
    and no second poll is made. *)
Lemma unprintable_status_raises :
  urlopen_get PollSamples.unprintable_status 0 (status_url 101)
  = Ret (Samples.status PollSamples.lone_surrogate)
  /\ urlopen_get PollSamples.unprintable_status 14 (status_url 101)
     = Ret (Samples.status PollSamples.lone_surrogate)
  /\ json_get (Samples.status PollSamples.lone_surrogate) "status" (JStr "unknown")
     = Ret (JStr PollSamples.lone_surrogate)
  /\ eq_str (JStr PollSamples.lone_surrogate) "successful" = false
  /\ eq_str (JStr PollSamples.lone_surrogate) "failed" = false
  /\ fst (wait_for_verification PollSamples.unprintable_status 101 "ClawRegistry"
            default_max_retries initial)
     = Raise UnicodeEncodeError
  /\ count is_get
       (trace (snd (wait_for_verification PollSamples.unprintable_status 101
                      "ClawRegistry" default_max_retries initial)))
     = 1%nat.
Proof. repeat split; vm_compute; reflexivity. Qed.

(** ** The orchestrator *)
Section Contract.
Local Open Scope list_scope.

Variable env : Env.
Variables (sc sv : json) (zv : string).

(** The iteration of a contract whose submission is accepted: the wait
    starts after one POST, and its outcome decides the entry. *)
Lemma verify_contract_accepted name info a results st vid :
  args info = Some a ->
  urlopen_post env (count is_post (trace st)) VERIFY_URL
    (verification_request name info sc sv zv)
  = Ret vid ->
  exists st_w,
    count is_get (trace st_w) = count is_get (trace st)
    /\ count is_post (trace st_w) = S (count is_post (trace st))
    /\ (forall e st_w',
          wait_for_verification env vid name default_max_retries st_w
          = (Raise e, st_w') ->
          verify_contract env sc sv zv name info results st = (Raise e, st_w'))
    /\ (forall outcome st_w',
          wait_for_verification env vid name default_max_retries st_w
          = (Ret outcome, st_w') ->
          (fst outcome = false ->
           PyStr.printable (str_error (snd outcome)) = true) ->
          exists st',
            verify_contract env sc sv zv name info results st
            = (Ret (dict_set results name (entry_of outcome)), st')
            /\ count is_get (trace st') = count is_get (trace st_w')
            /\ count is_post (trace st') = count is_post (trace st_w')).
Proof.
  intros Ha Hpost. unfold verify_contract. rewrite Ha, !bind_print.
  match goal with
  | |- context [bind (submit_verification _ _ _ _ _ _) _ ?s] => set (st_submit := s)
  end.
  assert (Hc : count is_post (trace st_submit) = count is_post (trace st))
    by (subst st_submit; cbn [trace]; counts).
  rewrite <- Hc in Hpost.
  rewrite (bind_ret_eq _ _ _ _ _
             (submit_verification_accepted env name info sc sv zv st_submit vid Hpost)).
  rewrite bind_print.
  match goal with
  | |- context [bind (wait_for_verification _ _ _ _) _ ?s] => set (st_w := s)
  end.
  exists st_w. split; [subst st_w st_submit; cbn [trace]; counts|].
  split; [subst st_w st_submit; cbn [trace]; counts|].
  split.
  - intros e st_w' Hw. now rewrite (bind_raise_eq _ _ _ _ _ Hw).
  - intros [success error] st_w' Hw Hpr. rewrite (bind_ret_eq _ _ _ _ _ Hw).
    unfold entry_of. cbn [fst snd] in *.
    destruct success.
    + rewrite !bind_print. unfold ret.
      eexists; split; [reflexivity|]; cbn [trace]; counts.
    + rewrite print_with_printable by (cbn [forallb]; now rewrite Hpr).
      rewrite !bind_print. unfold ret.
      eexists; split; [reflexivity|]; cbn [trace]; counts.
Qed.

(** X19: an accepted submission whose poll answers [failed] with a
    reason that can be printed (after polls whose status could be printed)
    is recorded as ["FAILED: "] followed by the reason of the service, and
    the iteration ends normally after one POST. *)
Theorem verify_contract_failed name info a results st vid k error :
  args info = Some a ->
  urlopen_post env (count is_post (trace st)) VERIFY_URL
    (verification_request name info sc sv zv)
  = Ret vid ->
  (k < default_max_retries)%nat ->
  (forall j, (j < k)%nat ->
     pending_at env (count is_get (trace st) + j) (status_url vid)) ->
  failed_at env (count is_get (trace st) + k) (status_url vid) error ->
  PyStr.printable (py_str error) = true ->
  exists st',
    verify_contract env sc sv zv name info results st
    = (Ret (dict_set results name ("FAILED: " ++ py_str error)%string), st')
    /\ count is_post (trace st') = S (count is_post (trace st))
    /\ count is_get (trace st') = (count is_get (trace st) + k + 1)%nat.
Proof.
  intros Ha Hpost Hk Hp Hf Hpr.
  destruct (verify_contract_accepted name info a results st vid Ha Hpost)
    as (st_w & Hg & Hpo & _ & Hret).
  rewrite <- Hg in Hp, Hf.
  destruct (wait_failed_after env vid name default_max_retries k st_w
              error Hk Hp Hf) as (st_w' & Hw & Hg' & Hpo').
  destruct (Hret _ _ Hw (fun _ => Hpr)) as (st' & Hv & Hg'' & Hpo'').
  exists st'. split; [exact Hv|]. split; lia.
Qed.

(** The same for a poll that answers [successful]. *)
Lemma verify_contract_verified name info a results st vid k :
  args info = Some a ->
  urlopen_post env (count is_post (trace st)) VERIFY_URL
    (verification_request name info sc sv zv)
  = Ret vid ->
  (k < default_max_retries)%nat ->
  (forall j, (j < k)%nat ->
     pending_at env (count is_get (trace st) + j) (status_url vid)) ->
  successful_at env (count is_get (trace st) + k) (status_url vid) ->
  exists st',
    verify_contract env sc sv zv name info results st
    = (Ret (dict_set results name "VERIFIED"%string), st')
    /\ count is_post (trace st') = S (count is_post (trace st))
    /\ count is_get (trace st') = (count is_get (trace st) + k + 1)%nat.
Proof.
  intros Ha Hpost Hk Hp Hs.
  destruct (verify_contract_accepted name info a results st vid Ha Hpost)
    as (st_w & Hg & Hpo & _ & Hret).
  rewrite <- Hg in Hp, Hs.
  destruct (wait_success_after env vid name default_max_retries k st_w
              Hk Hp Hs) as (st_w' & Hw & Hg' & _ & Hpo').
  destruct (Hret _ _ Hw ltac:(discriminate)) as (st' & Hv & Hg'' & Hpo'').
  exists st'. split; [exact Hv|]. split; lia.
Qed.

(** The same for fifteen polls that are not final. *)
Lemma verify_contract_timeout name info a results st vid :
  args info = Some a ->
  urlopen_post env (count is_post (trace st)) VERIFY_URL
    (verification_request name info sc sv zv)
  = Ret vid ->
  (forall j, (j < 15)%nat ->
     pending_at env (count is_get (trace st) + j) (status_url vid)) ->
  exists st',
    verify_contract env sc sv zv name info results st
    = (Ret (dict_set results name
              "FAILED: Timeout waiting for verification"%string), st')
    /\ count is_post (trace st') = S (count is_post (trace st))
    /\ count is_get (trace st') = (count is_get (trace st) + 15)%nat.
Proof.
  intros Ha Hpost Hp.
  destruct (verify_contract_accepted name info a results st vid Ha Hpost)
    as (st_w & Hg & Hpo & _ & Hret).
  rewrite <- Hg in Hp.
  destruct (wait_loop_pending env vid default_max_retries default_max_retries 0
              st_w Hp) as (st_w' & Hw & Hg' & Hpo' & _).
  destruct (Hret _ _ Hw (fun _ => eq_refl)) as (st' & Hv & Hg'' & Hpo'').
  exists st'. split; [exact Hv|]. change default_max_retries with 15%nat in Hg'.
  split; lia.
Qed.

End Contract.

(** *** Events that are not network calls *)
Section Local.
Local Open Scope list_scope.

Lemma count_local (t added : list event) :
  Forall local_event added ->
  count is_post (t ++ added) = count is_post t
  /\ count is_get (t ++ added) = count is_get t.
Proof.
  intros H. rewrite !count_app.
  assert (E : count is_post added = 0%nat /\ count is_get added = 0%nat).
  { induction H as [|e r He _ IH]; [split; reflexivity|].
    unfold local_event, is_network in He. apply orb_false_iff in He as [Hp Hg].
    unfold count in *. cbn [filter]. rewrite Hp, Hg. exact IH. }
  destruct E as [-> ->]. lia.
Qed.

Lemma quiet_local_counts {A : Type} (m : M A) (st : state) :
  quiet local_event m ->
  count is_post (trace (snd (m st))) = count is_post (trace st)
  /\ count is_get (trace (snd (m st))) = count is_get (trace st).
Proof.
  intros Hq. destruct (Hq st) as (_ & added & -> & Hall).
  now apply count_local.
Qed.

Lemma count_network (t : list event) :
  count is_network t = (count is_post t + count is_get t)%nat.
Proof.
  unfold count. induction t as [|e t IH]; [reflexivity|].
  cbn [filter]. unfold is_network at 1.
  destruct e; cbn [is_post is_get orb List.length]; lia.
Qed.

Ltac local_step :=
  lazymatch goal with
  | |- quiet _ (bind _ _) => apply quiet_bind; [|intros]
  | |- quiet _ (ret _) => apply quiet_ret
  | |- quiet _ (raise _) => apply quiet_raise
  | |- quiet _ (lift _) => apply quiet_lift
  | |- quiet _ get_contracts => apply quiet_get_contracts
  | |- quiet _ (print _) => apply quiet_print
  | |- quiet _ (print_with _ _) => apply quiet_print_with
  | |- quiet _ (emit _) => apply quiet_emit
  | |- quiet _ (call _ _ _) => apply quiet_call
  | |- quiet _ (match ?x with _ => _ end) => destruct x
  | |- local_event _ => reflexivity
  end.

Variable env : Env.

Lemma local_load_build_info : quiet local_event (load_build_info env).
Proof. unfold load_build_info. repeat local_step. Qed.

Lemma local_load_source_code : quiet local_event (load_source_code env).
Proof.
  unfold load_source_code.
  apply quiet_bind; [apply local_load_build_info | intros].
  repeat local_step.
Qed.

Lemma local_get_zksolc_version : quiet local_event (get_zksolc_version env).
Proof.
  unfold get_zksolc_version.
  apply quiet_bind; [apply local_load_build_info | intros].
  repeat local_step.
Qed.

Lemma local_print_results (results : results_dict) :
  quiet local_event (print_results results).
Proof.
  induction results as [|[name result] rest IH]; cbn [print_results].
  - apply quiet_ret.
  - apply quiet_bind; [repeat local_step | intros; exact IH].
Qed.

Lemma local_report (results : results_dict) : quiet local_event (report results).
Proof.
  unfold report. do 3 (apply quiet_bind; [repeat local_step | intros]).
  apply quiet_bind; [apply local_print_results | intros]. apply quiet_ret.
Qed.

(** The setup of [main] makes no network call. *)
Lemma main_setup_local :
  count is_post (trace (snd (main_setup env initial))) = 0%nat
  /\ count is_get (trace (snd (main_setup env initial))) = 0%nat.
Proof.
  rewrite main_setup_start.
  match goal with
  | |- context [snd (?m after_banner)] => assert (Hq : quiet local_event m)
  end.
  { apply quiet_bind; [apply local_load_source_code | intros].
    destruct a.
    apply quiet_bind; [apply local_get_zksolc_version | intros].
    repeat local_step. }
  exact (quiet_local_counts _ after_banner Hq).
Qed.

End Local.

(** *** How many network calls a run can make *)
Section Bounds.
Local Open Scope list_scope.

Lemma bounded_weaken {A : Type} (p g p' g' : nat) (m : M A) :
  bounded p g m -> (p <= p')%nat -> (g <= g')%nat -> bounded p' g' m.
Proof. intros H Hp Hg st. destruct (H st). split; lia. Qed.

Lemma bounded_local {A : Type} (p g : nat) (m : M A) :
  quiet local_event m -> bounded p g m.
Proof.
  intros Hq st. destruct (quiet_local_counts m st Hq) as [-> ->]. split; lia.
Qed.

Lemma bounded_bind {A B : Type} (p1 g1 p2 g2 : nat) (m : M A) (k : A -> M B) :
  bounded p1 g1 m -> (forall a, bounded p2 g2 (k a)) ->
  bounded (p1 + p2) (g1 + g2) (bind m k).
Proof.
  intros Hm Hk st. unfold bind. destruct (Hm st) as [Hp Hg].
  destruct (m st) as [[a|e] st1]; cbn [snd] in *.
  - destruct (Hk a st1). split; lia.
  - split; lia.
Qed.

Lemma bounded_after_local {A B : Type} (p g : nat) (m : M A) (k : A -> M B) :
  quiet local_event m -> (forall a, bounded p g (k a)) -> bounded p g (bind m k).
Proof.
  intros Hm Hk. apply (bounded_bind 0 0 p g); [now apply bounded_local | exact Hk].
Qed.

Variable env : Env.

Lemma bounded_submit_verification name info sc sv zv :
  bounded 1 0 (submit_verification env name info sc sv zv).
Proof.
  intros st. unfold submit_verification, try_except, bind, call, ret, lift, print, emit.
  cbn [trace contracts].
  destruct (urlopen_post env _ VERIFY_URL _) as [vid|e]; cbn [snd trace contracts].
  - counts.
  - destruct e; cbn [snd trace contracts]; try solve [counts].
    destruct body as [text|]; cbn [snd trace contracts]; counts.
Qed.

Lemma bounded_wait_for_verification vid name max_retries :
  bounded 0 max_retries (wait_for_verification env vid name max_retries).
Proof.
  intros st. unfold wait_for_verification.
  destruct (wait_loop_bounds env vid max_retries max_retries 0 st)
    as (k & Hk & Hg & _ & Hp & _).
  split; lia.
Qed.

Lemma bounded_verify_contract sc sv zv name info results :
  bounded 1 15 (verify_contract env sc sv zv name info results).
Proof.
  unfold verify_contract.
  apply bounded_after_local; [apply quiet_print; reflexivity | intros _].
  destruct (args info) as [a|]; [|apply bounded_local, quiet_raise].
  apply bounded_after_local; [apply quiet_print; reflexivity | intros _].
  apply (bounded_bind 1 0 0 15); [apply bounded_submit_verification | intros vid].
  destruct vid as [vid|]; [|apply bounded_local, quiet_ret].
  apply bounded_after_local; [apply quiet_print; reflexivity | intros _].
  apply (bounded_bind 0 15 0 0); [apply bounded_wait_for_verification | intros [s e]].
  apply bounded_local.
  destruct s;
    repeat first [ apply quiet_bind; [|intros] | apply quiet_print; reflexivity
                 | apply quiet_print_with; reflexivity | apply quiet_ret ].
Qed.

Lemma bounded_verify_all sc sv zv :
  forall items results,
    bounded (List.length items) (15 * List.length items)
      (verify_all env sc sv zv items results).
Proof.
  induction items as [|[name info] rest IH]; intros results; cbn [verify_all].
  - apply bounded_local, quiet_ret.
  - apply (bounded_weaken (1 + List.length rest) (15 + 15 * List.length rest));
      [|cbn [List.length]; lia ..].
    apply bounded_bind; [apply bounded_verify_contract | intros; apply IH].
Qed.

(** X24: whatever the outside world answers, a run makes no network call
    during its setup, at most one POST per contract (4) and at most 15
    polls per contract (60). *)
Theorem main_network_bounds :
  count is_network (trace (snd (main_setup env initial))) = 0%nat
  /\ (count is_post (trace (snd (main env initial))) <= 4)%nat
  /\ (count is_get (trace (snd (main env initial))) <= 60)%nat.
Proof.
  destruct (main_setup_local env) as [Hp0 Hg0].
  split; [rewrite count_network; lia|].
  assert (Hres : (count is_post (trace (snd (main_results env initial))) <= 4)%nat
                 /\ (count is_get (trace (snd (main_results env initial))) <= 60)%nat).
  { destruct (main_setup env initial) as [[[[sc sv] zv]|e] st0] eqn:E;
      cbn [snd] in Hp0, Hg0.
    - rewrite (main_results_unfold env _ _ _ _ E).
      destruct (bounded_verify_all sc sv zv CONTRACTS_resolved [] st0) as [Hp Hg].
      change (List.length CONTRACTS_resolved) with 4%nat in Hp, Hg. split; lia.
    - unfold main_results. rewrite (bind_raise_eq _ _ _ _ _ E). cbn [snd].
      split; lia. }
  destruct (main_results env initial) as [[results|e] st1] eqn:E; cbn [snd] in Hres.
  - rewrite (main_unfold env _ _ E).
    destruct (quiet_local_counts _ st1 (local_report results)) as [-> ->].
    exact Hres.
  - rewrite (main_raise env _ _ E). exact Hres.
Qed.

End Bounds.

(** *** Whole runs *)
Section Runs.
Local Open Scope list_scope.

Variable env : Env.

Lemma load_build_info_inv (st st1 : state) (build_info : json) :
  load_build_info env st = (Ret build_info, st1) ->
  exists names first others,
    os_listdir env (count is_listdir (trace st)) build_dir = Ret names
    /\ json_files names = first :: others
    /\ json_load env (count is_open (trace st)) (path_join build_dir first)
       = Ret build_info
    /\ st1 = {| contracts := contracts st;
                trace := trace st ++ [EvListdir build_dir;
                                      EvOpen (path_join build_dir first)] |}.
Proof.
  intros H.
  destruct (os_listdir env (count is_listdir (trace st)) build_dir)
    as [names|e] eqn:Hls.
  2:{ unfold load_build_info, bind, call in H. rewrite Hls in H. discriminate H. }
  destruct (json_files names) as [|first others] eqn:Hf.
  { unfold load_build_info, bind, call in H. rewrite Hls, Hf in H. discriminate H. }
  rewrite (load_build_info_first env st names first others Hls Hf) in H.
  injection H as Hload <-.
  now exists names, first, others.
Qed.

Lemma lift_ret_inv {A : Type} (o : outcome A) (st st' : state) (a : A) :
  lift o st = (Ret a, st') -> o = Ret a /\ st' = st.
Proof. unfold lift. intros H. injection H as -> ->. now split. Qed.

(** X26: a setup that succeeds has listed the build-info directory and
    parsed a build-info file twice, once for the compiler input and once
    for the zksolc version, each time the first [.json] name of the
    listing of that moment; it has done nothing else but print. *)
Theorem main_setup_reads_twice (sc sv : json) (zv : string) (st0 : state) :
  main_setup env initial = (Ret (sc, sv, zv), st0) ->
  exists names0 first0 others0 names1 first1 others1,
    os_listdir env 0 build_dir = Ret names0
    /\ json_files names0 = first0 :: others0
    /\ os_listdir env 1 build_dir = Ret names1
    /\ json_files names1 = first1 :: others1
    /\ trace st0
       = trace after_banner
         ++ [ EvListdir build_dir; EvOpen (path_join build_dir first0);
              EvListdir build_dir; EvOpen (path_join build_dir first1);
              EvPrint ("Compiler: zksolc " ++ zv ++ ", solc " ++ py_str sv)%string;
              EvPrint "" ].
Proof.
  rewrite main_setup_start. intros H.
  apply bind_ret_inv in H as ([sc' sv'] & s1 & Hload & H).
  apply bind_ret_inv in H as (zv' & s2 & Hver & H).
  apply bind_ret_inv in H as ([] & s3 & Hpw & H).
  apply print_with_ret_inv in Hpw as [_ ->].
  rewrite bind_print in H. injection H as <- <- <- <-.
  unfold load_source_code in Hload.
  apply bind_ret_inv in Hload as (bi0 & s0 & Hbi0 & Hload).
  apply bind_ret_inv in Hload as (i & sa & Hi & Hload).
  apply lift_ret_inv in Hi as [_ ->].
  apply bind_ret_inv in Hload as (s & sb & Hs & Hload).
  apply lift_ret_inv in Hs as [_ ->].
  injection Hload as _ _ <-.
  apply load_build_info_inv in Hbi0
    as (names0 & first0 & others0 & Hls0 & Hf0 & _ & ->).
  unfold get_zksolc_version in Hver.
  apply bind_ret_inv in Hver as (bi1 & t0 & Hbi1 & Hver).
  apply bind_ret_inv in Hver as (o & ta & Ho & Hver).
  apply lift_ret_inv in Ho as [_ ->].
  apply bind_ret_inv in Hver as (c & tb & Hc & Hver).
  apply lift_ret_inv in Hc as [_ ->].
  apply bind_ret_inv in Hver as (srcs & tc & Hsr & Hver).
  apply lift_ret_inv in Hsr as [_ ->].
  apply bind_ret_inv in Hver as (found & td & Hfd & Hver).
  apply lift_ret_inv in Hfd as [_ ->].
  assert (Hs2 : s2 = t0) by (destruct found; now injection Hver as _ <-).
  subst s2.
  apply load_build_info_inv in Hbi1
    as (names1 & first1 & others1 & Hls1 & Hf1 & _ & ->).
  cbn [trace contracts] in *.
  exists names0, first0, others0, names1, first1, others1.
  repeat split; assumption.
Qed.

(** The trace of the loop of [main] does not hold the header of the
    report. *)
Lemma no_report_in_results :
  Forall not_report (trace (snd (main_results env initial))).
Proof.
  pose proof (main_setup_state env) as [_ H0].
  destruct (main_setup env initial) as [[[[sc sv] zv]|e] st0] eqn:E; cbn [snd] in H0.
  - rewrite (main_results_unfold env _ _ _ _ E).
    exact (quiet_Forall not_report _ st0
             (quiet_verify_all env sc sv zv CONTRACTS_resolved []) H0).
  - unfold main_results. now rewrite (bind_raise_eq _ _ _ _ _ E).
Qed.

(** X23: the report is printed exactly in the runs in which [main]
    returns: once an exception leaves the setup or the loop, no summary of
    the contracts already handled is printed. *)
Theorem report_printed_iff_main_returns :
  In (EvPrint report_header) (trace (snd (main env initial)))
  <-> exists b, fst (main env initial) = Ret b.
Proof.
  pose proof no_report_in_results as Hno.
  destruct (main_results env initial) as [[results|e] st1] eqn:E; cbn [snd] in Hno.
  - rewrite (main_unfold env _ _ E).
    destruct (report_runs results st1 (main_results_printable env _ _ E))
      as (st' & -> & Hin).
    cbn [fst snd].
    split; [intros _; now eexists | intros _; exact Hin].
  - rewrite (main_raise env _ _ E). cbn [fst snd]. split.
    + intros Hin. rewrite Forall_forall in Hno. now contradiction (Hno _ Hin).
    + intros [b Hb]. discriminate Hb.
Qed.

(** X25: an exception in the setup (the directory cannot be listed, the
    file cannot be parsed or misses a part) ends [main] with that
    exception before any network call and without a report; the exit
    status is 1. *)
Theorem setup_failure_aborts (e : exn) (st : state) :
  main_setup env initial = (Raise e, st) ->
  main env initial = (Raise e, st)
  /\ exit_code env = 1
  /\ count is_network (trace st) = 0%nat
  /\ ~ In (EvPrint report_header) (trace st).
Proof.
  intros H.
  assert (Hm : main env initial = (Raise e, st)).
  { apply main_raise. unfold main_results. now apply bind_raise_eq. }
  split; [exact Hm|]. split; [unfold exit_code; now rewrite Hm|].
  split.
  - destruct (main_setup_local env) as [Hp Hg]. rewrite H in Hp, Hg.
    cbn [snd] in Hp, Hg. rewrite count_network. lia.
  - pose proof (main_setup_state env) as [_ H0]. rewrite H in H0. cbn [snd] in H0.
    intros Hin. rewrite Forall_forall in H0. now contradiction (H0 _ Hin).
Qed.

Variables (sc sv : json) (zv : string) (st0 : state).
Hypothesis Hsetup : main_setup env initial = (Ret (sc, sv, zv), st0).

(** Every submission is accepted. *)
Hypothesis Haccept :
  forall n req, exists vid, urlopen_post env n VERIFY_URL req = Ret vid.

Lemma verify_all_successful :
  (forall n url, successful_at env n url) ->
  forall items,
    (forall n i, In (n, i) items -> exists a, args i = Some a) ->
    forall results st,
      exists st',
        verify_all env sc sv zv items results st
        = (Ret (fold_left (fun r entry => dict_set r (fst entry) "VERIFIED"%string)
                  items results), st')
        /\ count is_post (trace st') = (count is_post (trace st) + List.length items)%nat
        /\ count is_get (trace st') = (count is_get (trace st) + List.length items)%nat.
Proof.
  intros Hget. induction items as [|[name info] rest IH]; intros Hargs results st.
  - exists st. cbn. repeat split; lia.
  - destruct (Hargs name info (or_introl eq_refl)) as [a Ha].
    destruct (Haccept (count is_post (trace st))
                (verification_request name info sc sv zv)) as [vid Hv].
    destruct (verify_contract_verified env sc sv zv name info a results st vid 0
                Ha Hv ltac:(unfold default_max_retries; lia)
                ltac:(intros j Hj; lia) (Hget _ _))
      as (s1 & H1 & Hp1 & Hg1).
    destruct (IH (fun n i H => Hargs n i (or_intror H))
                (dict_set results name "VERIFIED"%string) s1)
      as (st' & H2 & Hp2 & Hg2).
    exists st'. cbn [verify_all fold_left fst List.length].
    rewrite (bind_ret_eq _ _ _ _ _ H1), H2. repeat split; lia.
Qed.

Lemma verify_all_timeout :
  (forall n url, pending_at env n url) ->
  forall items,
    (forall n i, In (n, i) items -> exists a, args i = Some a) ->
    forall results st,
      exists st',
        verify_all env sc sv zv items results st
        = (Ret (fold_left
                  (fun r entry =>
                     dict_set r (fst entry)
                       "FAILED: Timeout waiting for verification"%string)
                  items results), st')
        /\ count is_post (trace st') = (count is_post (trace st) + List.length items)%nat
        /\ count is_get (trace st')
           = (count is_get (trace st) + 15 * List.length items)%nat.
Proof.
  intros Hget. induction items as [|[name info] rest IH]; intros Hargs results st.
  - exists st. cbn. repeat split; lia.
  - destruct (Hargs name info (or_introl eq_refl)) as [a Ha].
    destruct (Haccept (count is_post (trace st))
                (verification_request name info sc sv zv)) as [vid Hv].
    destruct (verify_contract_timeout env sc sv zv name info a results st vid
                Ha Hv (fun j _ => Hget _ _))
      as (s1 & H1 & Hp1 & Hg1).
    destruct (IH (fun n i H => Hargs n i (or_intror H))
                (dict_set results name
                   "FAILED: Timeout waiting for verification"%string) s1)
      as (st' & H2 & Hp2 & Hg2).
    exists st'. cbn [verify_all fold_left fst List.length].
    rewrite (bind_ret_eq _ _ _ _ _ H1), H2. repeat split; lia.
Qed.

Lemma main_after_results results st1 :
  main_results env initial = (Ret results, st1) ->
  exists st,
    main env initial = (Ret (all_verified results), st)
    /\ count is_post (trace st) = count is_post (trace st1)
    /\ count is_get (trace st) = count is_get (trace st1).
Proof.
  intros H. rewrite (main_unfold env _ _ H).
  destruct (report_runs results st1 (main_results_printable env _ _ H))
    as (st' & Hr & _).
  destruct (quiet_local_counts _ st1 (local_report results)) as [Hp Hg].
  rewrite Hr in Hp, Hg. cbn [snd] in Hp, Hg. now exists st'.
Qed.

(** X20: when the setup succeeds, every submission is accepted and every
    poll answers [successful], the run makes four POSTs and four polls,
    reports the four contracts as ["VERIFIED"] in the order of the
    registry, and ends with exit status 0. *)
Theorem run_all_successful :
  (forall n url, successful_at env n url) ->
  exists st,
    main env initial = (Ret true, st)
    /\ exit_code env = 0
    /\ fst (main_results env initial)
       = Ret [ ("ClawRenderer", "VERIFIED"); ("ClawRegistry", "VERIFIED");
               ("ClawEvolution", "VERIFIED"); ("ClawReputation", "VERIFIED") ]%string
    /\ count is_post (trace st) = 4%nat
    /\ count is_get (trace st) = 4%nat.
Proof.
  intros Hget.
  destruct (main_setup_local env) as [Hp0 Hg0]. rewrite Hsetup in Hp0, Hg0.
  cbn [snd] in Hp0, Hg0.
  destruct (verify_all_successful Hget CONTRACTS_resolved resolved_args [] st0)
    as (st1 & H1 & Hp1 & Hg1).
  rewrite <- (main_results_unfold env _ _ _ _ Hsetup) in H1.
  destruct (main_after_results _ _ H1) as (st & Hm & Hp & Hg).
  exists st. split; [exact Hm|]. split; [unfold exit_code; now rewrite Hm|].
  split; [now rewrite H1|].
  change (List.length CONTRACTS_resolved) with 4%nat in Hp1, Hg1. split; lia.
Qed.

(** X21: when the setup succeeds, every submission is accepted and every
    poll answers with a status that is neither [successful] nor [failed]
    and can be printed, the run polls each of the four contracts 15 times,
    reports each as the timeout failure, and ends with exit status 1. *)
Theorem run_all_timeout :
  (forall n url, pending_at env n url) ->
  exists st,
    main env initial = (Ret false, st)
    /\ exit_code env = 1
    /\ fst (main_results env initial)
       = Ret [ ("ClawRenderer", "FAILED: Timeout waiting for verification");
               ("ClawRegistry", "FAILED: Timeout waiting for verification");
               ("ClawEvolution", "FAILED: Timeout waiting for verification");
               ("ClawReputation", "FAILED: Timeout waiting for verification")
             ]%string
    /\ count is_post (trace st) = 4%nat
    /\ count is_get (trace st) = 60%nat.
Proof.
  intros Hget.
  destruct (main_setup_local env) as [Hp0 Hg0]. rewrite Hsetup in Hp0, Hg0.
  cbn [snd] in Hp0, Hg0.
  destruct (verify_all_timeout Hget CONTRACTS_resolved resolved_args [] st0)
    as (st1 & H1 & Hp1 & Hg1).
  rewrite <- (main_results_unfold env _ _ _ _ Hsetup) in H1.
  destruct (main_after_results _ _ H1) as (st & Hm & Hp & Hg).
  exists st. split; [exact Hm|]. split; [unfold exit_code; now rewrite Hm|].
  split; [now rewrite H1|].
  change (List.length CONTRACTS_resolved) with 4%nat in Hp1, Hg1. split; lia.
Qed.

End Runs.

(** *** A poll that raises *)
Section PollAbort.
Local Open Scope list_scope.

Variable env : Env.
Variables (sc sv : json) (zv : string) (st0 : state).
Variables (pre post : registry) (name : string) (info : contract_info).
Variables (results1 : results_dict) (st1 : state).

Hypothesis Hsetup : main_setup env initial = (Ret (sc, sv, zv), st0).
Hypothesis Hsplit : CONTRACTS_resolved = pre ++ (name, info) :: post.
Hypothesis Hpre : verify_all env sc sv zv pre [] st0 = (Ret results1, st1).

(** X22: a status poll that raises (a refused connection, an answer that
    is not a [dict]), after polls whose status was not final and could be
    printed, is not caught anywhere: [main] ends with that exception, the
    contracts after the polled one are never submitted, no report is
    printed and the exit status is 1. *)
Theorem poll_error_aborts_run (vid : Z) (k : nat) (e : exn) :
  urlopen_post env (count is_post (trace st1)) VERIFY_URL
    (verification_request name info sc sv zv)
  = Ret vid ->
  (k < default_max_retries)%nat ->
  (forall j, (j < k)%nat ->
     pending_at env (count is_get (trace st1) + j) (status_url vid)) ->
  poll_raises_at env (count is_get (trace st1) + k) (status_url vid) e ->
  exists st2,
    main env initial = (Raise e, st2)
    /\ exit_code env = 1
    /\ ~ In (EvPrint report_header) (trace st2)
    /\ count is_post (trace st2) = S (count is_post (trace st1)).
Proof.
  intros Hpost Hk Hp He.
  destruct (contract_has_args pre post name info Hsplit) as [a Ha].
  destruct (verify_contract_accepted env sc sv zv name info a results1 st1 vid
              Ha Hpost) as (st_w & Hg & Hpo & Hraise & _).
  rewrite <- Hg in Hp, He.
  destruct (wait_poll_error_after env vid name default_max_retries k st_w e
              Hk Hp He) as (st2 & Hw & _ & Hpo').
  pose proof (Hraise e st2 Hw) as Hvc.
  assert (Hmain : main env initial = (Raise e, st2)).
  { apply main_raise.
    rewrite (run_reaches_contract env sc sv zv st0 pre post name info results1 st1
               Hsetup Hsplit Hpre).
    cbn [verify_all]. now apply bind_raise_eq. }
  exists st2. split; [exact Hmain|]. split; [unfold exit_code; now rewrite Hmain|].
  split; [|lia].
  pose proof (quiet_Forall not_report _ st1
                (quiet_verify_contract env sc sv zv name info results1)
                (no_report_before_contract env sc sv zv st0 pre results1 st1
                   Hsetup Hpre)) as Hall.
  rewrite Hvc in Hall. cbn [snd] in Hall.
  intros Hin. rewrite Forall_forall in Hall. now apply (Hall _ Hin).
Qed.

End PollAbort.

(** *** More sample runs *)

Lemma verify_contract_failed_witness :
  exists st',
    verify_contract PollSamples.failed_with_reason (JStr "") (JStr "0.8.24")
      "v1.5.10" "ClawRenderer"
      {| address := "0x90f493bfB740F00E6Cf280f4B9A6943d4b96d274";
         source := "contracts/ClawRenderer.sol";
         args := Some "0x" |}
      [] initial
    = (Ret [("ClawRenderer", "FAILED: Bytecode mismatch")]%string, st').
Proof.
  destruct (verify_contract_failed PollSamples.failed_with_reason (JStr "")
              (JStr "0.8.24") "v1.5.10" "ClawRenderer"
              {| address := "0x90f493bfB740F00E6Cf280f4B9A6943d4b96d274";
                 source := "contracts/ClawRenderer.sol";
                 args := Some "0x" |}
              "0x" [] initial 0 0 (JStr "Bytecode mismatch"))
    as (st' & H & _).
  - reflexivity.
  - reflexivity.
  - unfold default_max_retries. lia.
  - intros j Hj. lia.
  - eexists; eexists; repeat split; reflexivity.
  - reflexivity.
  - exists st'. exact H.
Defined.

Lemma main_setup_reads_twice_witness :
  count is_listdir (trace (snd (main_setup Samples.all_successful initial))) = 2%nat
  /\ count is_open (trace (snd (main_setup Samples.all_successful initial))) = 2%nat.
Proof.
  eassert (Hsetup : main_setup Samples.all_successful initial
                    = (Ret (_, _, _), _)) by (vm_compute; reflexivity).
  destruct (main_setup_reads_twice Samples.all_successful _ _ _ _ Hsetup)
    as (n0 & f0 & o0 & n1 & f1 & o1 & _ & _ & _ & _ & Ht).
  rewrite Hsetup. cbn [snd]. rewrite Ht. split; reflexivity.
Defined.

Lemma setup_failure_aborts_witness :
  exists st,
    main MoreSamples.no_directory initial = (Raise OSError, st)
    /\ exit_code MoreSamples.no_directory = 1
    /\ count is_network (trace st) = 0%nat.
Proof.
  eassert (Hsetup : main_setup MoreSamples.no_directory initial
                    = (Raise OSError, _)) by (vm_compute; reflexivity).
  destruct (setup_failure_aborts MoreSamples.no_directory OSError _ Hsetup)
    as (Hm & Hx & Hn & _).
  eexists. split; [exact Hm|]. split; [exact Hx | exact Hn].
Defined.

Lemma run_all_successful_witness :
  exists st,
    main Samples.all_successful initial = (Ret true, st)
    /\ exit_code Samples.all_successful = 0.
Proof.
  eassert (Hsetup : main_setup Samples.all_successful initial
                    = (Ret (_, _, _), _)) by (vm_compute; reflexivity).
  destruct (run_all_successful Samples.all_successful _ _ _ _ Hsetup)
    as (st & Hm & Hx & _).
  - intros n req. eexists. reflexivity.
  - intros n url. exists (Samples.status "successful"), (JStr "successful").
    repeat split; reflexivity.
  - exists st. split; [exact Hm | exact Hx].
Defined.

Lemma run_all_timeout_witness :
  exists st,
    main Samples.always_in_progress initial = (Ret false, st)
    /\ exit_code Samples.always_in_progress = 1
    /\ count is_get (trace st) = 60%nat.
Proof.
  eassert (Hsetup : main_setup Samples.always_in_progress initial
                    = (Ret (_, _, _), _)) by (vm_compute; reflexivity).
  destruct (run_all_timeout Samples.always_in_progress _ _ _ _ Hsetup)
    as (st & Hm & Hx & _ & _ & Hg).
  - intros n req. eexists. reflexivity.
  - intros n url. exists (Samples.status "in_progress"), (JStr "in_progress").
    repeat split; reflexivity.
  - exists st. split; [exact Hm|]. split; [exact Hx | exact Hg].
Defined.

Lemma poll_error_aborts_run_witness :
  exists st2,
    main PollSamples.polls_refused initial = (Raise URLError, st2)
    /\ exit_code PollSamples.polls_refused = 1
    /\ count is_post (trace st2) = 1%nat.
Proof.
  eassert (Hsetup : main_setup PollSamples.polls_refused initial
                    = (Ret (_, _, _), _)) by (vm_compute; reflexivity).
  match type of Hsetup with
  | _ = (Ret (?sc, ?sv, ?zv), ?st0) =>
      destruct (poll_error_aborts_run PollSamples.polls_refused sc sv zv st0
                  [] _ _ _ [] st0 Hsetup eq_refl eq_refl 0 0 URLError)
        as (st2 & Hm & Hx & _ & Hp)
  end.
  - reflexivity.
  - unfold default_max_retries. lia.
  - intros j Hj. lia.
  - reflexivity.
  - exists st2. split; [exact Hm|]. split; [exact Hx | exact Hp].
Defined.
